(** * The vector similarity store of RAG_API ([api/module/sqlitevec.py])

    A shallow embedding of the class [SQLiteVecDB]: its constructor and its
    methods [initialize_table], [add_one], [get_all] and [search], over an
    explicit model of what these methods touch: the database files, the
    embedding callable, the clock, and the [sqlite3] and [sqlite_vec]
    packages. *)

From Stdlib Require Import ZArith List String Ascii DecimalString Lia Permutation Sorted.
From stdpp Require Import base option list sorting strings gmap.

Local Open Scope Z_scope.
Local Open Scope nat_scope.

(** ** Exceptions

    The module defines no exception class and catches nothing: an exception
    raised by a callee leaves the method as it is. *)
Inductive sqlite_error : Type :=
| CannotOpen                                    (* unable to open database file *)
| NoSuchTable                                   (* no such table: vectors *)
| BadDimensions (d : nat)                       (* vec0: float[0] is no column type *)
| DimensionMismatch (expected received : nat)   (* inserted or query vector *)
| BadK (k : Z).                                 (* k of a KNN query out of range *)

Inductive exn : Type :=
| TypeError                                     (* 'NoneType' object is not callable *)
| JSONDecodeError                               (* json.loads on a text that is no JSON *)
| OperationalError (e : sqlite_error)           (* sqlite3.OperationalError *)
| Foreign (cls : string).                       (* raised outside the module: by the embedding
                                                   callable, by the loading of the extension *)

(** The name of the class of an exception. *)
Definition class_name (e : exn) : string :=
  match e with
  | TypeError => "TypeError"
  | JSONDecodeError => "JSONDecodeError"
  | OperationalError _ => "OperationalError"
  | Foreign cls => cls
  end.

Inductive outcome (A : Type) : Type :=
| Returned (a : A)
| Raised (e : exn).
Arguments Returned {A} a.
Arguments Raised {A} e.

(** ** What the module imports

    The methods never look inside a float, a packed vector or a distance: they
    hand them from the embedding callable to [sqlite_vec.serialize_float32],
    to the [vec0] table and back through [vec_to_json] and [json.loads].  The
    model is therefore written over an interface of these operations and of
    the machine the module runs on.

    - [float]: a Python float, a component of what the embedding returns;
    - [f32]: one component of a packed float32 vector (the BLOB of the column
      [embedding]); [pack_f32] is [struct.pack("f", x)] in the native format,
      which narrows the float and raises nothing, also when the result is
      infinite;
    - [numeral]: the text of one number of the array that the SQL function
      [vec_to_json] renders; [json_to_float] is what [json.loads] reads in it,
      [None] when the text is no JSON and [json.loads] raises
      [JSONDecodeError];
    - [dist], [vec_distance], [dist_leb]: the values of the column [distance]
      of a KNN query, the metric of the vector column and the comparison that
      [ORDER BY distance ASC] sorts with;
    - [scan_order], [knn_order]: the order in which the engine meets the rows
      of a table when it evaluates the query of [get_all] and the KNN query
      of [search], as rearrangements of the insertion (rowid) order; rows
      that the requested [ORDER BY] key does not separate come out in this
      order;
    - [knn_k_max]: the largest [k] the engine accepts in a KNN query;
    - [can_open]: the paths at which [sqlite3.connect] can open a file, or
      create one when there is none;
    - [load_error]: what [enable_load_extension] or [sqlite_vec.load] raises
      on this machine, if anything ([AttributeError] when [sqlite3] was built
      without extensions, [sqlite3.OperationalError] when the library does
      not load). *)
Class Backend : Type := {
  float : Type;
  f32 : Type;
  numeral : Type;
  pack_f32 : float -> f32;
  f32_to_json : f32 -> numeral;
  json_to_float : numeral -> option float;
  dist : Type;
  vec_distance : list f32 -> list f32 -> dist;
  dist_leb : dist -> dist -> bool;
  scan_order : forall A : Type, list A -> list A;
  knn_order : forall A : Type, list A -> list A;
  knn_k_max : Z;
  can_open : string -> bool;
  load_error : option exn;
}.

(** What the proofs about queries need of an engine: a scan meets every row
    once, and the comparison of distances is a total preorder. *)
Class BackendLaws (B : Backend) : Prop := {
  scan_order_perm : forall (A : Type) (l : list A), Permutation (scan_order A l) l;
  knn_order_perm : forall (A : Type) (l : list A), Permutation (knn_order A l) l;
  dist_leb_total : forall a b : dist, dist_leb a b = true \/ dist_leb b a = true;
  dist_leb_trans : forall a b c : dist,
    dist_leb a b = true -> dist_leb b c = true -> dist_leb a c = true;
}.

(** Splits a conjunction into its conjuncts, and nothing else. *)
Ltac conjuncts := repeat match goal with |- _ /\ _ => split end.

(** ** [ORDER BY key ASC]: a stable insertion sort on a key *)
Section OrderBy.
Context {A K : Type} (key : A -> K) (leb : K -> K -> bool).

Fixpoint insert_by (x : A) (l : list A) : list A :=
  match l with
  | [] => [x]
  | y :: l' => if leb (key x) (key y) then x :: l else y :: insert_by x l'
  end.

Definition order_by (l : list A) : list A := foldr insert_by [] l.

Definition key_le (a b : A) : Prop := leb (key a) (key b) = true.

(** Two keys tie when each is below the other. *)
Definition tied (d : K) (x : A) : bool := leb (key x) d && leb d (key x).

End OrderBy.

(** ** The database files *)
(** One row of the virtual table [vectors], over the type [F] of the
    components of a packed vector. A timestamp is a reading of [time.time()];
    only the order of the readings matters, they are counted in ticks of the
    clock. *)
Record row (F : Type) : Type := {
  r_embedding : list F;
  r_query : string;
  r_content : string;
  r_timestamp : Z;
}.
Arguments r_embedding {F} _.
Arguments r_query {F} _.
Arguments r_content {F} _.
Arguments r_timestamp {F} _.

(** The table [vectors] of a file: the dimension of its column
    [embedding float[D]] and its rows, in insertion (rowid) order. *)
Record table (F : Type) : Type := {
  t_dim : nat;
  t_rows : list (row F);
}.
Arguments t_dim {F} _.
Arguments t_rows {F} _.

(** The world a store acts on: the table [vectors] of each database file
    that has one; the paths at which a file is known to be there, with or
    without the table (a file of [w_files] is there too); and the texts the
    embedding callable has been invoked on, latest last. *)
Record world (F : Type) : Type := {
  w_files : gmap string (table F);
  w_present : gset string;
  w_embed_calls : list string;
}.
Arguments w_files {F} _.
Arguments w_present {F} _.
Arguments w_embed_calls {F} _.

Definition set_files {F : Type} (f : gmap string (table F) -> gmap string (table F))
    (w : world F) : world F :=
  {| w_files := f (w_files w); w_present := w_present w;
     w_embed_calls := w_embed_calls w |}.

Definition log_embed_call {F : Type} (text : string) (w : world F) : world F :=
  {| w_files := w_files w; w_present := w_present w;
     w_embed_calls := w_embed_calls w ++ [text] |}.

(** A file is at [path]. *)
Definition there {F : Type} (path : string) (w : world F) : world F :=
  {| w_files := w_files w; w_present := {[path]} ∪ w_present w;
     w_embed_calls := w_embed_calls w |}.

(** [sqlite3.connect] has opened [path]: a file with a table is as it was,
    and otherwise the file is there, created when it was missing. *)
Definition opened {F : Type} (path : string) (w : world F) : world F :=
  match w_files w !! path with
  | Some _ => w
  | None => there path w
  end.

(** A connection knows its file and the content of [vectors] it has written
    and not yet committed. *)
Record connection (F : Type) : Type := {
  c_path : string;
  c_pending : option (table F);
}.
Arguments c_path {F} _.
Arguments c_pending {F} _.

(** ** The store object, over the type [X] of Python floats *)
Definition embedding_callable (X : Type) : Type := string -> outcome (list X).

Record SQLiteVecDB (X : Type) : Type := {
  db_filepath : string;
  embed : option (embedding_callable X);
  embedding_size : nat;
}.
Arguments db_filepath {X} _.
Arguments embed {X} _.
Arguments embedding_size {X} _.

(** The store that [__init__] builds. *)
Definition store_of {X : Type} (path : string) (f : option (embedding_callable X)) (d : nat)
  : SQLiteVecDB X :=
  {| db_filepath := path; embed := f; embedding_size := d |}.

(** A row of the data frame [get_all] returns. *)
Record record (X : Type) : Type := {
  embedding : list X;
  query : string;
  content : string;
  timestamp : Z;
}.
Arguments embedding {X} _.
Arguments query {X} _.
Arguments content {X} _.
Arguments timestamp {X} _.

(** The row [add_one] writes, a table with one more row, the table
    [initialize_table] creates. *)
Definition new_row {F : Type} (blob : list F) (now : Z) (query content : string) : row F :=
  {| r_embedding := blob; r_query := query; r_content := content; r_timestamp := now |}.

Definition append_row {F : Type} (t : table F) (r : row F) : table F :=
  {| t_dim := t_dim t; t_rows := t_rows t ++ [r] |}.

Definition empty_table {F : Type} (d : nat) : table F := {| t_dim := d; t_rows := [] |}.

(** The rows of a data frame with their index, which counts from 1. *)
Definition numbered {A : Type} (l : list A) : list (nat * A) := zip (seq 1 (length l)) l.

Section Model.
Context {B : Backend}.

(** ** Methods as state transformers that may raise

    A method runs on a world and either returns or raises, and leaves a
    world behind in both cases. *)
Definition M (A : Type) : Type := world f32 -> outcome A * world f32.

#[export] Instance M_ret : MRet M := fun A a w => (Returned a, w).
#[export] Instance M_bind : MBind M := fun A C f m w =>
  match m w with
  | (Returned a, w') => f a w'
  | (Raised e, w') => (Raised e, w')
  end.
Definition raise {A : Type} (e : exn) : M A := fun w => (Raised e, w).

(** [self.embed(text)]: calling [None] raises [TypeError]; a call of the
    callable is logged, and what it raises propagates. *)
Definition call_embed (f : option (embedding_callable float)) (text : string) : M (list float) :=
  match f with
  | None => raise TypeError
  | Some f =>
      fun w => match f text with
               | Returned v => (Returned v, log_embed_call text w)
               | Raised e => (Raised e, log_embed_call text w)
               end
  end.

(** [sqlite_vec.serialize_float32(vector)] is
    [struct.pack("%sf" % len(vector), *vector)]. *)
Definition serialize_float32 (v : list float) : list f32 := map pack_f32 v.

(** The SQL function [vec_to_json], and [json.loads] on the text of an
    array: [None] when it raises [JSONDecodeError]. *)
Definition vec_to_json (b : list f32) : list numeral := map f32_to_json b.
Definition json_loads (s : list numeral) : option (list float) := mapM json_to_float s.

(** ** Connections and SQL statements

    [sqlite3.connect] raises when it can neither open nor create the file,
    and creates a file that is missing. Python's [sqlite3] opens a
    transaction before an [INSERT] and none before a [DROP] or a [CREATE],
    which take effect at once; a connection that is dropped without [commit]
    loses its pending writes. The statements are those of the methods, with
    the meaning SQLite and the [vec0] module give them. *)
Definition connect (path : string) : M (connection f32) :=
  fun w =>
    if can_open path
    then (Returned {| c_path := path; c_pending := None |}, opened path w)
    else (Raised (OperationalError CannotOpen), w).

(** [db.enable_load_extension(True); sqlite_vec.load(db);
     db.enable_load_extension(False)] *)
Definition load_extension (db : connection f32) : M (connection f32) :=
  match load_error with
  | Some e => raise e
  | None => mret db
  end.

(** What the connection sees of the table. *)
Definition view (db : connection f32) (w : world f32) : option (table f32) :=
  match c_pending db with
  | Some t => Some t
  | None => w_files w !! c_path db
  end.

(** [DROP TABLE IF EXISTS vectors]: the file stays. *)
Definition execute_drop (db : connection f32) : M (connection f32) :=
  fun w => (Returned {| c_path := c_path db; c_pending := None |},
            set_files (delete (c_path db)) (there (c_path db) w)).

(** [CREATE VIRTUAL TABLE IF NOT EXISTS vectors USING vec0(embedding float[d], ...)]:
    nothing happens when the table exists; [vec0] refuses a column of no
    dimension. *)
Definition execute_create (db : connection f32) (d : nat) : M (connection f32) :=
  fun w =>
    match view db w with
    | Some _ => (Returned db, w)
    | None =>
        match d with
        | O => (Raised (OperationalError (BadDimensions d)), w)
        | S _ => (Returned db,
                  set_files (insert (c_path db) {| t_dim := d; t_rows := [] |}) w)
        end
    end.

(** [INSERT INTO vectors (embedding, query, content, timestamp) VALUES (?, ?, ?, ?)]:
    [vec0] checks the length of the vector against the column. The row is
    pending until [commit]. *)
Definition execute_insert (db : connection f32) (r : row f32) : M (connection f32) :=
  fun w =>
    match view db w with
    | None => (Raised (OperationalError NoSuchTable), w)
    | Some t =>
        if decide (length (r_embedding r) = t_dim t)
        then (Returned {| c_path := c_path db;
                          c_pending := Some {| t_dim := t_dim t;
                                               t_rows := t_rows t ++ [r] |} |}, w)
        else (Raised (OperationalError
                        (DimensionMismatch (t_dim t) (length (r_embedding r)))), w)
    end.

Definition commit (db : connection f32) : M (connection f32) :=
  fun w =>
    match c_pending db with
    | None => (Returned db, w)
    | Some t => (Returned {| c_path := c_path db; c_pending := None |},
                 set_files (insert (c_path db) t) w)
    end.

Definition close (db : connection f32) : M unit := mret tt.

(** [SELECT vec_to_json(embedding), query, content, timestamp FROM vectors
     ORDER BY timestamp ASC] *)
Definition execute_select_all (db : connection f32)
  : M (list (list numeral * string * string * Z)) :=
  fun w =>
    match view db w with
    | None => (Raised (OperationalError NoSuchTable), w)
    | Some t =>
        (Returned
           (map (fun r => (vec_to_json (r_embedding r), r_query r, r_content r,
                           r_timestamp r))
              (order_by r_timestamp Z.leb (scan_order (row f32) (t_rows t)))), w)
    end.

(** [SELECT query, content, distance FROM vectors
     WHERE embedding MATCH ? AND k = ? ORDER BY distance ASC] *)
Definition knn_rows (t : table f32) (q : list f32) (k : Z) : list (string * string * dist) :=
  take (Z.to_nat k)
    (order_by snd dist_leb
       (map (fun r => (r_query r, r_content r, vec_distance (r_embedding r) q))
          (knn_order (row f32) (t_rows t)))).

Definition execute_select_knn (db : connection f32) (q : list f32) (k : Z)
  : M (list (string * string * dist)) :=
  fun w =>
    match view db w with
    | None => (Raised (OperationalError NoSuchTable), w)
    | Some t =>
        if decide (length q = t_dim t)
        then if decide (0 <= k <= knn_k_max)%Z
             then (Returned (knn_rows t q k), w)
             else (Raised (OperationalError (BadK k)), w)
        else (Raised (OperationalError (DimensionMismatch (t_dim t) (length q))), w)
    end.

(** ** The methods of [SQLiteVecDB] *)
Definition connect_sqlitevec (self : SQLiteVecDB float) : M (connection f32) :=
  db ← connect (db_filepath self);
  load_extension db.

Definition initialize_table (self : SQLiteVecDB float) (remove_old_table : bool) : M unit :=
  db ← connect_sqlitevec self;
  db ← (if remove_old_table then execute_drop db else mret db);
  db ← execute_create db (embedding_size self);
  db ← commit db;
  close db.

(** [__init__]: [embedding_size] is [None] when the caller gives no
    dimension; the probe text is ["test"]. *)
Definition init (db_filepath : string) (embedding_size : option nat)
    (embedding_function : option (embedding_callable float)) (init_db : bool)
  : M (SQLiteVecDB float) :=
  size ← match embedding_size with
         | None => embedding ← call_embed embedding_function "test";
                   mret (length embedding)
         | Some d => mret d
         end;
  let self := {| db_filepath := db_filepath; embed := embedding_function;
                 embedding_size := size |} in
  _ ← (if init_db then initialize_table self true else mret tt);
  mret self.

(** [add_one]: [now] is the reading of [time.time()] this call takes. *)
Definition add_one (self : SQLiteVecDB float) (now : Z) (query content : string) : M unit :=
  db ← connect_sqlitevec self;
  embedding ← call_embed (embed self) query;
  let embedding := take (embedding_size self) embedding in
  let timestamp := now in
  db ← execute_insert db {| r_embedding := serialize_float32 embedding; r_query := query;
                            r_content := content; r_timestamp := timestamp |};
  db ← commit db;
  close db.

(** The loop of [get_all] over the rows it fetched: the first text that
    [json.loads] cannot read ends it. *)
Definition read_row (result : list numeral * string * string * Z) : option (record float) :=
  let '(embed_str, query, content, timestamp) := result in
  embedding ← json_loads embed_str;
  Some {| embedding := embedding; query := query; content := content;
          timestamp := timestamp |}.

Definition get_all (self : SQLiteVecDB float) : M (list (record float)) :=
  db ← connect_sqlitevec self;
  results ← execute_select_all db;
  rows ← match mapM read_row results with
         | Some rows => mret rows
         | None => raise JSONDecodeError
         end;
  _ ← close db;
  mret rows.

(** [search]: the data frame has the columns [query], [content], [distance]
    and the index [order], which counts from 1. *)
Definition search (self : SQLiteVecDB float) (query : string) (k : Z)
  : M (list (nat * (string * string * dist))) :=
  db ← connect_sqlitevec self;
  embedding ← call_embed (embed self) query;
  let embedding := take (embedding_size self) embedding in
  results ← execute_select_knn db (serialize_float32 embedding) k;
  _ ← close db;
  mret (numbered results).

(** What [connect_sqlitevec] raises on a path, if anything, and the world it
    leaves when it raises. *)
Definition connect_error (path : string) : option exn :=
  if can_open path then load_error else Some (OperationalError CannotOpen).

Definition after_connect (path : string) (w : world f32) : world f32 :=
  if can_open path then opened path w else w.

End Model.

(** ** The vocabulary of the claims *)
Section Vocabulary.
Context {B : Backend}.
Implicit Types (self : SQLiteVecDB float) (w : world f32) (t : table f32) (v : list float).

(** The record [get_all] builds from a stored row, when [json.loads] can
    read the text of its vector. *)
Definition record_of_row (r : row f32) : option (record float) :=
  embedding ← json_loads (vec_to_json (r_embedding r));
  Some {| embedding := embedding; query := r_query r; content := r_content r;
          timestamp := r_timestamp r |}.

(** [json.loads] can read the text [vec_to_json] renders for a packed
    vector. *)
Definition readable (blob : list f32) : Prop := is_Some (json_loads (vec_to_json blob)).

(** The table of the store's file, when there is one, has the dimension of the
    store: it is the table [initialize_table] of this store creates. *)
Definition consistent self w : Prop :=
  forall t, w_files w !! db_filepath self = Some t -> t_dim t = embedding_size self.

(** The table of the store's file, when there is one, has the dimension of
    the store, and so has each vector in it. *)
Definition fits self w : Prop :=
  forall t, w_files w !! db_filepath self = Some t ->
    t_dim t = embedding_size self
    /\ Forall (fun r => length (r_embedding r) = embedding_size self) (t_rows t).

(** The calls a client makes on a store. *)
Inductive call : Type :=
| InitializeTable (remove_old_table : bool)
| AddOne (now : Z) (query content : string)
| GetAll
| Search (query : string) (k : Z).

(** The world a call leaves, whether it returns or raises. *)
Definition run_call self (c : call) w : world f32 :=
  match c with
  | InitializeTable remove_old_table => (initialize_table self remove_old_table w).2
  | AddOne now query content => (add_one self now query content w).2
  | GetAll => (get_all self w).2
  | Search query k => (search self query k w).2
  end.

Definition run_calls self (cs : list call) w : world f32 :=
  fold_left (fun w c => run_call self c w) cs w.

(** A stored row as a KNN query returns it. *)
Definition scored (q : list f32) (r : row f32) : string * string * dist :=
  (r_query r, r_content r, vec_distance (r_embedding r) q).

(** All the rows of the table in the order of the query [... ORDER BY distance ASC],
    of which [knn_rows] is the first [k]. *)
Definition ranked (t : table f32) (q : list f32) : list (string * string * dist) :=
  order_by snd dist_leb (map (scored q) (knn_order (row f32) (t_rows t))).

(** What a call of [search] needs to reach the query: the connection opens,
    the file has a table of the dimension of the store, and the embedding
    answers with at least that many components, of which the first D are
    packed into [blob]. *)
Definition reaches_query self (query : string) w t (blob : list f32) : Prop :=
  connect_error (db_filepath self) = None /\
  w_files w !! db_filepath self = Some t /\ t_dim t = embedding_size self /\
  exists f v, embed self = Some f /\ f query = Returned v /\
    embedding_size self <= length v /\
    blob = serialize_float32 (take (embedding_size self) v).

(** A component survives storage when packing it to float32, rendering it in
    JSON and reading it back gives the same float. *)
Definition survives (x : float) : Prop :=
  json_to_float (f32_to_json (pack_f32 x)) = Some x.

End Vocabulary.

(** ** An engine to run the model on

    Components are floats that are whole numbers, written as integers.
    Packing one to float32 keeps 24 significant bits, rounding to nearest,
    ties to even, and gives an infinity from 2^128 on. [vec_to_json] writes
    a number with 16 significant digits and zeros after them, and [Inf] or
    [-Inf] for an infinity, which is no JSON; [json.loads] reads a number as
    the nearest float of 53 significant bits. The metric is the Euclidean
    distance, the square root of the sum of the squared differences: a
    distance is given by this sum, which orders it; with an infinite
    component it is no number the model follows, and sorts last. The rows of
    a table are met in insertion order by the query of [get_all] and latest
    first by a KNN query; at most 4096 neighbours can be asked for. Every
    file opens but those under the directory [/nowhere], which is missing,
    and the extension loads. *)
Definition round_to (bits : Z) (x : Z) : Z :=
  let a := Z.abs x in
  let sh := (Z.log2 a - (bits - 1))%Z in
  if (sh <=? 0)%Z then x
  else
    let q := Z.shiftr a sh in
    let r := Z.land a (Z.ones sh) in
    let half := Z.shiftl 1 (sh - 1) in
    let q' := if (half <? r)%Z || ((r =? half)%Z && Z.odd q) then (q + 1)%Z else q in
    (Z.sgn x * Z.shiftl q' sh)%Z.

Definition round_f32 (x : Z) : Z := round_to 24 x.

Inductive f32_value : Type :=
| Finite (z : Z)
| Infinite (negative : bool).

Definition pack_whole (x : Z) : f32_value :=
  let y := round_f32 x in
  if (Z.abs y <? 2 ^ 128)%Z then Finite y else Infinite (x <? 0)%Z.

(** The least power of ten, from [p] on, that leaves at most 16 digits of
    [a]. *)
Fixpoint scale16 (fuel : nat) (p a : Z) : Z :=
  match fuel with
  | O => p
  | S fuel' => if (a / p <? 10 ^ 16)%Z then p else scale16 fuel' (10 * p)%Z a
  end.

Definition sixteen_digits (z : Z) : Z :=
  let a := Z.abs z in
  let p := scale16 (Z.to_nat (Z.log2 a)) 1 a in
  (Z.sgn z * ((a + p / 2) / p) * p)%Z.

Inductive json_number : Type :=
| Number (z : Z)
| InfText (negative : bool).

Definition render_f32 (y : f32_value) : json_number :=
  match y with
  | Finite z => Number (sixteen_digits z)
  | Infinite negative => InfText negative
  end.

Definition read_number (s : json_number) : option Z :=
  match s with
  | Number z => Some (round_to 53 z)
  | InfText _ => None
  end.

Fixpoint sq_l2 (a b : list f32_value) : option Z :=
  match a, b with
  | Finite x :: a', Finite y :: b' =>
      match sq_l2 a' b' with
      | Some s => Some ((x - y) * (x - y) + s)%Z
      | None => None
      end
  | Infinite _ :: _, _ :: _ | _ :: _, Infinite _ :: _ => None
  | _, _ => Some 0%Z
  end.

Inductive distance : Type :=
| Root (radicand : Z)
| Unbounded.

Definition l2 (a b : list f32_value) : distance :=
  match sq_l2 a b with
  | Some s => Root s
  | None => Unbounded
  end.

Definition distance_leb (a b : distance) : bool :=
  match a, b with
  | Root x, Root y => (x <=? y)%Z
  | _, Unbounded => true
  | Unbounded, Root _ => false
  end.

Definition IntBackend : Backend := {|
  float := Z; f32 := f32_value; numeral := json_number;
  pack_f32 := pack_whole; f32_to_json := render_f32; json_to_float := read_number;
  dist := distance; vec_distance := l2; dist_leb := distance_leb;
  scan_order := fun A l => l;
  knn_order := fun A l => rev l;
  knn_k_max := 4096;
  can_open := fun path => negb (String.prefix "/nowhere/" path);
  load_error := None;
|}.

(** The same engine on a machine whose [sqlite3] was built without
    extensions. *)
Definition BareBackend : Backend := {|
  float := Z; f32 := f32_value; numeral := json_number;
  pack_f32 := pack_whole; f32_to_json := render_f32; json_to_float := read_number;
  dist := distance; vec_distance := l2; dist_leb := distance_leb;
  scan_order := fun A l => l;
  knn_order := fun A l => rev l;
  knn_k_max := 4096;
  can_open := fun path => negb (String.prefix "/nowhere/" path);
  load_error := Some (Foreign "AttributeError");
|}.

(** * Worlds and stores to run the methods on *)
Definition demo_embed : embedding_callable Z :=
  fun text => Returned [Z.of_nat (String.length text); 1; 9]%Z.
Definition short_embed : embedding_callable Z :=
  fun text => Returned [7%Z].
Definition failing_embed : embedding_callable Z :=
  fun text => Raised (Foreign "TimeoutError").

Definition demo_store : SQLiteVecDB Z :=
  {| db_filepath := "rag.sqlite"; embed := Some demo_embed; embedding_size := 2 |}.
Definition short_store : SQLiteVecDB Z :=
  {| db_filepath := "rag.sqlite"; embed := Some short_embed; embedding_size := 2 |}.
Definition failing_store : SQLiteVecDB Z :=
  {| db_filepath := "rag.sqlite"; embed := Some failing_embed; embedding_size := 2 |}.

Definition no_files : world f32_value :=
  {| w_files := ∅; w_present := ∅; w_embed_calls := [] |}.

(** A file with an empty table of dimension 2, and the same after
    [add_one("ab", "first")] at time 10 and [add_one("abcd", "second")] at
    time 20. *)
Definition fresh_world : world f32_value :=
  {| w_files := {[ "rag.sqlite" := empty_table 2 ]}; w_present := {[ "rag.sqlite" ]};
     w_embed_calls := [] |}.
Definition two_rows : table f32_value :=
  {| t_dim := 2;
     t_rows := [new_row [Finite 2; Finite 1] 10 "ab" "first";
                new_row [Finite 4; Finite 1] 20 "abcd" "second"] |}.
Definition demo_world : world f32_value :=
  {| w_files := {[ "rag.sqlite" := two_rows ]}; w_present := {[ "rag.sqlite" ]};
     w_embed_calls := ["ab"; "abcd"] |}.

(** A store of dimension 3 on the file of [demo_world], whose table has
    dimension 2, with an embedding of two components. *)
Definition pair_embed : embedding_callable Z := fun text => Returned [7; 8]%Z.
Definition wide_store : SQLiteVecDB Z :=
  {| db_filepath := "rag.sqlite"; embed := Some pair_embed; embedding_size := 3 |}.

(** A store of dimension 3 on the same file, with an embedding of three
    components. *)
Definition cubic_store : SQLiteVecDB Z :=
  {| db_filepath := "rag.sqlite"; embed := Some demo_embed; embedding_size := 3 |}.

(** An embedding that is the same for every text, and two rows inserted with
    it. *)
Definition const_embed : embedding_callable Z := fun text => Returned [1; 1]%Z.
Definition tie_store : SQLiteVecDB Z :=
  {| db_filepath := "rag.sqlite"; embed := Some const_embed; embedding_size := 2 |}.
Definition tie_world : world f32_value :=
  (add_one (B:=IntBackend) tie_store 20 "b" "second"
     (add_one (B:=IntBackend) tie_store 10 "a" "first" fresh_world).2).2.

(** A second store on the same file, with another embedding that answers
    with the same first two components. *)
Definition other_embed : embedding_callable Z := fun text => Returned [3; 1; 0; 5]%Z.
Definition other_store : SQLiteVecDB Z :=
  {| db_filepath := "rag.sqlite"; embed := Some other_embed; embedding_size := 2 |}.

(** The clock is set back between two insertions. *)
Definition clock_back_world : world f32_value :=
  (add_one (B:=IntBackend) demo_store 10 "abcd" "second"
     (add_one (B:=IntBackend) demo_store 20 "ab" "first" fresh_world).2).2.

(** A component of more than 24 significant bits does not survive storage:
    2^24 + 1 is stored, and read back, as 2^24. *)
Definition big_embed : embedding_callable Z := fun text => Returned [16777217; 0]%Z.
Definition big_store : SQLiteVecDB Z :=
  {| db_filepath := "rag.sqlite"; embed := Some big_embed; embedding_size := 2 |}.

(** A component from 2^128 on is stored as an infinity, whose text
    [json.loads] cannot read. *)
Definition huge_embed : embedding_callable Z := fun text => Returned [2 ^ 128; 0]%Z.
Definition huge_store : SQLiteVecDB Z :=
  {| db_filepath := "rag.sqlite"; embed := Some huge_embed; embedding_size := 2 |}.

(** A store on a file in a directory that is missing. *)
Definition lost_store : SQLiteVecDB Z :=
  {| db_filepath := "/nowhere/rag.sqlite"; embed := Some demo_embed; embedding_size := 2 |}.

(** * The rest of the package: file names, file discovery, the embedding
      client and the HTTP service *)

(** ** Python strings

    A [str] is modelled by its UTF-8 bytes. [lower] maps the ASCII capitals;
    the code compares its result with the words ["default"], ["openai"] and
    ["google"] only, which no other text lowers to. [replace_char] is
    [str.replace] of one ASCII character by another, [endswith] is
    [str.endswith], and [str_of_int] is what an f-string writes for an int. *)
Definition lower_char (c : ascii) : ascii :=
  let n := nat_of_ascii c in
  if (65 <=? n) && (n <=? 90) then ascii_of_nat (n + 32) else c.

Fixpoint lower (s : string) : string :=
  match s with
  | EmptyString => EmptyString
  | String c s' => String (lower_char c) (lower s')
  end.

Fixpoint replace_char (old new : ascii) (s : string) : string :=
  match s with
  | EmptyString => EmptyString
  | String c s' => String (if Ascii.eqb c old then new else c) (replace_char old new s')
  end.

Fixpoint endswith (s suffix : string) : bool :=
  String.eqb s suffix
  || match s with
     | EmptyString => false
     | String _ s' => endswith s' suffix
     end.

Definition str_of_int (n : Z) : string := NilZero.string_of_int (Z.to_int n).

(** ** [api/module/utils.py] *)

(** [get_db_filename]: [date_str] and [time_str] are what
    [datetime.datetime.now()] gives in the formats [%Y%m%d] and [%H%M%S];
    [string_] is the parameter [string]. *)
Definition get_db_filename (date_str time_str source model : string) (nrows njobs : Z)
    (string_ : string) : string :=
  let db_filename :=
    match string_ with
    | String _ _ =>
        "RAGDB_" +:+ date_str +:+ "_" +:+ time_str +:+ "_" +:+ source +:+ "(" +:+ model
        +:+ ")_nrows" +:+ str_of_int nrows +:+ "_njobs" +:+ str_of_int njobs
        +:+ "_" +:+ string_ +:+ ".sqlite"
    | EmptyString =>
        "RAGDB_" +:+ date_str +:+ "_" +:+ time_str +:+ "_" +:+ source +:+ "(" +:+ model
        +:+ ")_nrows" +:+ str_of_int nrows +:+ "_njobs" +:+ str_of_int njobs
        +:+ ".sqlite"
    end in
  replace_char "/" "_" db_filename.

(** ** File discovery ([get_sqlite_db_path])

    What the function asks of the operating system: the names and the
    modification times of the entries of a directory, in the order
    [Path.glob] meets them (none for a directory that is missing), whether a
    path exists, pathlib's [/] and [resolve]. Paths are their text; a
    modification time counts ticks, as a timestamp does. *)
Record filesystem : Type := {
  scandir : string -> list (string * Z);
  path_exists : string -> bool;
  joinpath : string -> string -> string;
  resolve : string -> string;
}.

(** The exceptions of the service layer, with their messages. *)
Inductive py_exception : Type :=
| KeyError (key : string)               (* os.environ[key] *)
| FileNotFoundError (message : string)
| ValueError (message : string)
| StoreException (e : exn).             (* what SQLiteVecDB or the embedding raised *)

(** [db_path.glob("*.sqlite")] on a POSIX system. *)
Definition glob_sqlite (fs : filesystem) (db_path : string) : list (string * Z) :=
  List.filter (fun entry => endswith entry.1 ".sqlite") (scandir fs db_path).

(** [max(x :: l, key=key)]: the first of the greatest. *)
Fixpoint max_by {A : Type} (key : A -> Z) (x : A) (l : list A) : A :=
  match l with
  | [] => x
  | y :: l' => max_by key (if (key x <? key y)%Z then y else x) l'
  end.

(** [db_file_name is None or db_file_name.lower() == "default"] *)
Definition names_default (db_file_name : option string) : bool :=
  match db_file_name with
  | None => true
  | Some name => String.eqb (lower name) "default"
  end.

(** [get_sqlite_db_path]: [env] is [os.environ], [project_root] the directory
    two levels above the module. *)
Definition get_sqlite_db_path (env : gmap string string) (fs : filesystem)
    (project_root : string) (db_file_name : option string) : py_exception + string :=
  match env !! "RAG_DB_DIR" with
  | None => inl (KeyError "RAG_DB_DIR")
  | Some rag_db_dir =>
      let db_path := joinpath fs project_root rag_db_dir in
      match glob_sqlite fs db_path with
      | [] => inl (FileNotFoundError ("No database files found in: " +:+ db_path))
      | first_file :: db_files =>
          if names_default db_file_name
          then let latest_file := max_by snd first_file db_files in
               inr (resolve fs (joinpath fs db_path latest_file.1))
          else
            let target_file := joinpath fs db_path (default "" db_file_name) in
            if path_exists fs target_file
            then inr (resolve fs target_file)
            else inl (ValueError ("Database file not found: " +:+ target_file))
      end
  end.

(** ** The embedding client ([api/module/embedding.py])

    The two LangChain clients are outside the package: [openai_embed_query]
    and [google_embed_query] stand for building the client with a key and a
    model and calling [embed_query] on a text. *)
Record providers (X : Type) : Type := {
  openai_embed_query : string -> string -> string -> outcome (list X);
  google_embed_query : string -> string -> string -> outcome (list X);
}.
Arguments openai_embed_query {X} _ _ _ _.
Arguments google_embed_query {X} _ _ _ _.

(** An [Embedding] object; [model] is [None] when the attribute was never
    set. *)
Record Embedding : Type := {
  api_key : string;
  source : string;
  model : option string;
}.

(** [Embedding.__init__], with the lines it prints. *)
Definition Embedding_init (api_key source : string) (model : option string)
  : Embedding * list string :=
  match model with
  | None =>
      if String.eqb source "openai"
      then ({| api_key := api_key; source := lower source;
               model := Some "text-embedding-3-small" |}, [])
      else if String.eqb source "google"
      then ({| api_key := api_key; source := lower source;
               model := Some "models/text-embedding-004" |}, [])
      else ({| api_key := api_key; source := lower source; model := None |},
            ["> invalid source"])
  | Some m => ({| api_key := api_key; source := lower source; model := Some m |}, [])
  end.

Inductive langchain_embeddings : Type :=
| OpenAIEmbeddings (api_key model : string)
| GoogleGenerativeAIEmbeddings (google_api_key model : string).

(** [get_langchain_embeddings]: reading [self.model] when it was never set
    raises [AttributeError]. *)
Definition get_langchain_embeddings (self : Embedding) : outcome langchain_embeddings :=
  if String.eqb (source self) "openai"
  then match model self with
       | Some m => Returned (OpenAIEmbeddings (api_key self) m)
       | None => Raised (Foreign "AttributeError")
       end
  else if String.eqb (source self) "google"
  then match model self with
       | Some m => Returned (GoogleGenerativeAIEmbeddings (api_key self) m)
       | None => Raised (Foreign "AttributeError")
       end
  else Raised (Foreign "ValueError").

Definition embed_query {X : Type} (P : providers X) (embeddings : langchain_embeddings)
    (text : string) : outcome (list X) :=
  match embeddings with
  | OpenAIEmbeddings key m => openai_embed_query P key m text
  | GoogleGenerativeAIEmbeddings key m => google_embed_query P key m text
  end.

(** [Embedding.embed], the callable the service gives to the store. *)
Definition Embedding_embed {X : Type} (P : providers X) (self : Embedding)
  : embedding_callable X :=
  fun query =>
    match get_langchain_embeddings self with
    | Raised e => Raised e
    | Returned embeddings => embed_query P embeddings query
    end.

(** ** The HTTP service ([api/main.py]) *)

(** The state of the application: the globals [VECTOR_DB] and [DB_NAME]. *)
Record app (X : Type) : Type := {
  VECTOR_DB : option (SQLiteVecDB X);
  DB_NAME : option string;
}.
Arguments VECTOR_DB {X} _.
Arguments DB_NAME {X} _.

Definition not_started {X : Type} : app X := {| VECTOR_DB := None; DB_NAME := None |}.

(** The three places that raise [HTTPException], each with its own text
    before the exception it reports. *)
Inductive http_detail : Type :=
| NotInitialized
| StartupFailed (e : py_exception)
| SearchFailed (e : exn).

Inductive http_exception : Type :=
| HTTPException (status_code : nat) (detail : http_detail).

(** [SearchRequest], [SearchResult] and [SearchResponse], over the type [D]
    of a distance. *)
Record SearchRequest : Type := {
  req_query : string;
  req_k : Z;
}.

Record SearchResult (D : Type) : Type := {
  res_content : string;
  res_distance : D;
}.
Arguments res_content {D} _.
Arguments res_distance {D} _.

Record SearchResponse (D : Type) : Type := {
  results : list (SearchResult D);
  resp_query : string;
  count : nat;
}.
Arguments results {D} _.
Arguments resp_query {D} _.
Arguments count {D} _.

(** What the framework makes of the parameters of a request, as the fields
    declare them: [query] is required, [k] is 3 when absent and lies between
    1 and 10. [None] is the answer 422. *)
Definition validate (raw_query : option string) (raw_k : option Z) : option SearchRequest :=
  match raw_query with
  | None => None
  | Some q =>
      let k := default 3%Z raw_k in
      if (1 <=? k)%Z && (k <=? 10)%Z then Some {| req_query := q; req_k := k |} else None
  end.

(** The answer to a request: the body, or a status code. *)
Inductive response (D : Type) : Type :=
| Response200 (body : SearchResponse D)
| ResponseError (status_code : nat).
Arguments Response200 {D} body.
Arguments ResponseError {D} status_code.

Section Service.
Context {B : Backend}.

(** [startup_event] *)
Definition startup_event (env : gmap string string) (fs : filesystem) (project_root : string)
    (P : providers float) : world f32 -> (http_exception + app float) * world f32 :=
  fun w =>
    let api_key := default "" (env !! "LLM_API_KEY") in
    match api_key with
    | EmptyString =>
        (inl (HTTPException 500
                (StartupFailed (ValueError "환경변수에서 LLM_API_KEY를 찾을 수 없음"))), w)
    | String _ _ =>
        let embedding_source := default "google" (env !! "EMBEDDING_SOURCE") in
        let embedding_model := default "models/text-embedding-004" (env !! "EMBEDDING_MODEL") in
        let embedding := (Embedding_init api_key embedding_source (Some embedding_model)).1 in
        let db_name := default "default" (env !! "RAG_DB_FILENAME") in
        match get_sqlite_db_path env fs project_root (Some db_name) with
        | inl e => (inl (HTTPException 500 (StartupFailed e)), w)
        | inr db_path =>
            match init db_path None (Some (Embedding_embed P embedding)) false w with
            | (Raised e, w') =>
                (inl (HTTPException 500 (StartupFailed (StoreException e))), w')
            | (Returned db, w') =>
                (inr {| VECTOR_DB := Some db; DB_NAME := Some db_name |}, w')
            end
        end
    end.

(** The handler [search] of [POST /v1/search/]. *)
Definition search_handler (state : app float) (request : SearchRequest)
  : world f32 -> (http_exception + SearchResponse dist) * world f32 :=
  fun w =>
    match VECTOR_DB state with
    | None => (inl (HTTPException 500 NotInitialized), w)
    | Some db =>
        match search db (req_query request) (req_k request) w with
        | (Raised e, w') => (inl (HTTPException 500 (SearchFailed e)), w')
        | (Returned results_df, w') =>
            let results :=
              map (fun row : nat * (string * string * dist) =>
                     {| res_content := row.2.1.2; res_distance := row.2.2 |}) results_df in
            (inr {| results := results; resp_query := req_query request;
                    count := length results |}, w')
        end
    end.

Definition respond (r : http_exception + SearchResponse dist) : response dist :=
  match r with
  | inl (HTTPException status_code _) => ResponseError status_code
  | inr body => Response200 body
  end.

(** [POST /v1/search/]: the body is validated, then handled. *)
Definition post_search (state : app float) (raw_query : option string) (raw_k : option Z)
  : world f32 -> response dist * world f32 :=
  fun w =>
    match validate raw_query raw_k with
    | None => (ResponseError 422, w)
    | Some request => let (r, w') := search_handler state request w in (respond r, w')
    end.

(** [GET /v1/search/] ([search_get]): the parameters are validated, a
    [SearchRequest] is built from them, which validates them again, and
    [search] handles it. *)
Definition search_get (state : app float) (raw_query : option string) (raw_k : option Z)
  : world f32 -> response dist * world f32 :=
  fun w =>
    match validate raw_query raw_k with
    | None => (ResponseError 422, w)
    | Some params =>
        match validate (Some (req_query params)) (Some (req_k params)) with
        | None => (ResponseError 500, w)
        | Some request => let (r, w') := search_handler state request w in (respond r, w')
        end
    end.

End Service.

(** ** Vocabulary of the further properties *)
Section MoreVocabulary.
Context {B : Backend}.
Implicit Types (self : SQLiteVecDB float) (w : world f32) (t : table f32) (v : list float).

(** The insertions of a bulk load: the clock reading, the query and the
    content of each [add_one], and the world they leave. *)
Definition add_all self (items : list (Z * string * string)) w : world f32 :=
  fold_left (fun w item => (add_one self item.1.1 item.1.2 item.2 w).2) items w.

(** The vector [add_one] stores for a text. *)
Definition stored_vector self (f : embedding_callable float) (text : string) : list f32 :=
  match f text with
  | Returned v => serialize_float32 (take (embedding_size self) v)
  | Raised _ => []
  end.

(** An embedding answers a text with enough components. *)
Definition embeds self (f : embedding_callable float) (text : string) : Prop :=
  exists v, f text = Returned v /\ embedding_size self <= length v.

(** The row [add_one] stores for an item of a bulk load, and the record
    [get_all] makes of it when the text of its vector can be read. *)
Definition row_of_item self (f : embedding_callable float) (item : Z * string * string)
  : row f32 :=
  new_row (stored_vector self f item.1.2) item.1.1 item.1.2 item.2.

Definition record_of_item self (f : embedding_callable float) (item : Z * string * string)
  : record float :=
  {| embedding := default [] (json_loads (vec_to_json (stored_vector self f item.1.2)));
     query := item.1.2; content := item.2; timestamp := item.1.1 |}.

(** The texts a call gives to the embedding of the store: the embedding is
    called after the connection was opened. *)
Definition embedded_texts self (c : call) : list string :=
  match c with
  | AddOne _ query _ | Search query _ =>
      match connect_error (db_filepath self), embed self with
      | None, Some _ => [query]
      | _, _ => []
      end
  | InitializeTable _ | GetAll => []
  end.

End MoreVocabulary.

(** ** A directory, an environment and providers to run the service on *)
Definition demo_fs : filesystem := {|
  scandir := fun d =>
    if String.eqb d "/srv/app/database"
    then [("old.sqlite", 100%Z); ("notes.txt", 900%Z); ("new.sqlite", 300%Z);
          ("copy.sqlite", 300%Z); ("plain.db", 50%Z)]
    else [];
  path_exists := fun p =>
    existsb (String.eqb p)
      ["/srv/app/database/old.sqlite"; "/srv/app/database/notes.txt";
       "/srv/app/database/new.sqlite"; "/srv/app/database/copy.sqlite";
       "/srv/app/database/plain.db"];
  joinpath := fun d name => d +:+ "/" +:+ name;
  resolve := fun p => p;
|}.

Definition empty_dir_fs : filesystem := {|
  scandir := fun d => [("plain.db", 50%Z)];
  path_exists := fun p => String.eqb p "/srv/app/database/plain.db";
  joinpath := fun d name => d +:+ "/" +:+ name;
  resolve := fun p => p;
|}.

Definition demo_env : gmap string string :=
  {[ "RAG_DB_DIR" := "database"; "LLM_API_KEY" := "secret" ]}.

Definition demo_providers : providers Z := {|
  openai_embed_query := fun key m text => Returned [1; 2; 3]%Z;
  google_embed_query := fun key m text => Returned [Z.of_nat (String.length text); 1]%Z;
|}.

(** The store the service starts on [demo_world], once its file is where the
    service looks for it. *)
Definition served_world : world f32_value :=
  {| w_files := {[ "/srv/app/database/new.sqlite" := two_rows ]}; w_present := ∅;
     w_embed_calls := [] |}.

(** The same file without a table. *)
Definition bare_world : world f32_value :=
  {| w_files := ∅; w_present := {[ "/srv/app/database/new.sqlite" ]}; w_embed_calls := [] |}.

(** The embedding of the service on [demo_env], and the state in which
    [startup_event] leaves the service there. *)
Definition served_embed : embedding_callable Z :=
  Embedding_embed demo_providers
    (Embedding_init "secret" "google" (Some "models/text-embedding-004")).1.

Definition served_store : SQLiteVecDB Z :=
  store_of "/srv/app/database/new.sqlite" (Some served_embed) 2.

Definition served_app : app Z :=
  {| VECTOR_DB := Some served_store; DB_NAME := Some "default" |}.

(** The insertions that make [two_rows]. *)
Definition demo_items : list (Z * string * string) :=
  [(10%Z, "ab", "first"); (20%Z, "abcd", "second")].

(** A directory into which a file named by [get_db_filename] was put after
    the others. *)
Definition written_name : string :=
  get_db_filename "20250331" "101500" "google" "models/text-embedding-004" 120 40 "".

Definition written_fs : filesystem := {|
  scandir := fun d => [("old.sqlite", 100%Z); (written_name, 500%Z); ("notes.txt", 900%Z)];
  path_exists := fun p => true;
  joinpath := fun d name => d +:+ "/" +:+ name;
  resolve := fun p => p;
|}.

(** An embedding that answers with no component. *)
Definition empty_embed : embedding_callable Z := fun text => Returned [].



(** * The engine meets the laws *)
Lemma IntBackend_laws : BackendLaws IntBackend.
Proof.
  split; simpl.
  - reflexivity.
  - intros A l. symmetry. apply Permutation_rev.
  - intros [x|] [y|]; simpl; [rewrite !Z.leb_le; lia|now left|now right|now left].
  - intros [x|] [y|] [z|]; simpl; try discriminate; try reflexivity.
    rewrite !Z.leb_le. lia.
Qed.

(** * Facts about [ORDER BY] *)
Section OrderByFacts.
Context {A K : Type} (key : A -> K) (leb : K -> K -> bool).

Abbreviation ins := (insert_by key leb).
Abbreviation ord := (order_by key leb).
Abbreviation kle := (key_le key leb).

Lemma insert_by_perm (x : A) (l : list A) : Permutation (ins x l) (x :: l).
Proof.
  induction l as [|y l IH]; simpl; [reflexivity|].
  destruct (leb (key x) (key y)); [reflexivity|].
  rewrite IH. apply perm_swap.
Qed.

Lemma order_by_perm (l : list A) : Permutation (ord l) l.
Proof.
  induction l as [|x l IH]; simpl; [reflexivity|].
  rewrite insert_by_perm. now apply perm_skip.
Qed.

Lemma order_by_length (l : list A) : length (ord l) = length l.
Proof. apply Permutation_length, order_by_perm. Qed.

Section Total.
Hypothesis leb_total : forall a b : K, leb a b = true \/ leb b a = true.

Lemma insert_by_hd (x y : A) (l : list A) :
  kle y x -> HdRel kle y l -> HdRel kle y (ins x l).
Proof.
  intros Hyx Hl. destruct l as [|z l]; simpl; [now constructor|].
  destruct (leb (key x) (key z)); constructor; [assumption|].
  now inversion Hl.
Qed.

Lemma insert_by_sorted (x : A) (l : list A) :
  Sorted kle l -> Sorted kle (ins x l).
Proof.
  induction 1 as [|y l Hl IH Hy]; simpl.
  - repeat constructor.
  - destruct (leb (key x) (key y)) eqn:E.
    + constructor; [now constructor|]. now constructor.
    + constructor; [exact IH|]. apply insert_by_hd; [|exact Hy].
      destruct (leb_total (key x) (key y)) as [H|H]; [congruence|exact H].
Qed.

(** The rows come out in ascending order of the key. *)
Lemma order_by_sorted (l : list A) : Sorted kle (ord l).
Proof.
  induction l as [|x l IH]; simpl; [constructor|].
  now apply insert_by_sorted.
Qed.

Section Trans.
Hypothesis leb_trans : forall a b c : K,
  leb a b = true -> leb b c = true -> leb a c = true.

Lemma key_le_trans : Transitive kle.
Proof. intros a b c. unfold key_le. apply leb_trans. Qed.

Lemma order_by_strongly_sorted (l : list A) : StronglySorted kle (ord l).
Proof.
  apply Sorted_StronglySorted; [apply key_le_trans|apply order_by_sorted].
Qed.

(** The first [k] rows of the order are [k] nearest ones: none of the
    rows left out comes before any of them. *)
Lemma order_by_take_nearest (k : nat) (l : list A) (x y : A) :
  x ∈ take k (ord l) -> y ∈ drop k (ord l) -> kle x y.
Proof.
  intros Hx Hy.
  apply (StronglySorted_app_1_elem_of kle (take k (ord l))
           (drop k (ord l))); [|assumption..].
  rewrite take_drop. apply order_by_strongly_sorted.
Qed.

Lemma insert_by_stable (d : K) (x : A) (l : list A) :
  List.filter (tied key leb d) (ins x l) = List.filter (tied key leb d) (x :: l).
Proof.
  induction l as [|y l IH]; [reflexivity|].
  cbn [insert_by]. destruct (leb (key x) (key y)) eqn:E; [reflexivity|].
  cbn [List.filter] in *. rewrite IH.
  destruct (tied key leb d x) eqn:Hx, (tied key leb d y) eqn:Hy; try reflexivity.
  unfold tied in Hx, Hy.
  apply andb_prop in Hx as [Hx1 Hx2]. apply andb_prop in Hy as [Hy1 Hy2].
  rewrite (leb_trans _ _ _ Hx1 Hy2) in E. discriminate.
Qed.

(** The sort is stable: rows that tie keep the order they came in. *)
Lemma order_by_stable (d : K) (l : list A) :
  List.filter (tied key leb d) (ord l) = List.filter (tied key leb d) l.
Proof.
  induction l as [|x l IH]; [reflexivity|].
  cbn [order_by foldr]. rewrite insert_by_stable.
  cbn [List.filter]. fold (ord l). now rewrite IH.
Qed.
End Trans.
End Total.
End OrderByFacts.

(** In a list whose keys increase strictly, a key names its row. *)
Lemma increasing_key_inj {A : Type} (key : A -> Z) (l : list A) (x y : A) :
  StronglySorted (fun a b => (key a < key b)%Z) l ->
  x ∈ l -> y ∈ l -> key x = key y -> x = y.
Proof.
  induction 1 as [|a l Hl IH Ha]; intros Hx Hy E.
  - inversion Hx.
  - rewrite Forall_forall in Ha.
    apply elem_of_cons in Hx as [->|Hx]; apply elem_of_cons in Hy as [->|Hy].
    + reflexivity.
    + specialize (Ha _ Hy). lia.
    + specialize (Ha _ Hx). lia.
    + now apply IH.
Qed.

(** Ordering by a key a rearrangement of a list whose keys increase strictly
    gives the list back. *)
Lemma order_by_increasing {A : Type} (key : A -> Z) (l l' : list A) :
  StronglySorted (fun a b => (key a < key b)%Z) l ->
  Permutation l' l ->
  order_by key Z.leb l' = l.
Proof.
  intros Hl Hp.
  apply (StronglySorted_unique_strong (key_le key Z.leb)).
  - intros x1 x2 H1 H2 H12 H21. unfold key_le in *.
    apply Z.leb_le in H12, H21.
    apply (increasing_key_inj key l); [assumption| |assumption|lia].
    rewrite <- Hp, <- (order_by_perm key Z.leb l'). exact H1.
  - apply order_by_strongly_sorted.
    + intros a b. rewrite !Z.leb_le. lia.
    + intros a b c. rewrite !Z.leb_le. lia.
  - clear Hp. induction Hl as [|a l Hl IH Ha]; constructor; [exact IH|].
    eapply Forall_impl; [exact Ha|].
    intros b H. unfold key_le. apply Z.leb_le. simpl in H. lia.
  - rewrite order_by_perm. exact Hp.
Qed.

(** * The methods, step by step *)
Section Methods.
Context {B : Backend}.

Implicit Types (self : SQLiteVecDB float) (w : world f32) (t : table f32) (v : list float).

(** Unfolds the sequencing of a method down to the statements it runs. *)
Ltac run_method :=
  unfold mbind, mret, M_bind, M_ret, raise, close; simpl.

(** ** Opening a file *)
Lemma opened_table (path : string) w t :
  w_files w !! path = Some t -> opened path w = w.
Proof. unfold opened. now intros ->. Qed.

Lemma opened_files (path : string) w : w_files (opened path w) = w_files w.
Proof. unfold opened. now destruct (w_files w !! path). Qed.

Lemma opened_embed_calls (path : string) w :
  w_embed_calls (opened path w) = w_embed_calls w.
Proof. unfold opened. now destruct (w_files w !! path). Qed.

Lemma there_there (path : string) w : there path (there path w) = there path w.
Proof. unfold there. simpl. f_equal. now rewrite (assoc_L (∪)), union_idemp_L. Qed.

Lemma there_opened (path : string) w : there path (opened path w) = there path w.
Proof.
  unfold opened. destruct (w_files w !! path); [reflexivity|apply there_there].
Qed.

Lemma opened_opened (path : string) w : opened path (opened path w) = opened path w.
Proof.
  unfold opened at 2 3. destruct (w_files w !! path) as [t|] eqn:Ht.
  - now apply opened_table with t.
  - unfold opened. simpl. rewrite Ht. apply there_there.
Qed.

Lemma opened_present (path : string) w :
  w_present (opened path w) ⊆ {[path]} ∪ w_present w.
Proof. unfold opened. destruct (w_files w !! path); simpl; set_solver. Qed.

Lemma after_connect_files (path : string) w : w_files (after_connect path w) = w_files w.
Proof. unfold after_connect. destruct (can_open path); [apply opened_files|reflexivity]. Qed.

Lemma after_connect_embed_calls (path : string) w :
  w_embed_calls (after_connect path w) = w_embed_calls w.
Proof.
  unfold after_connect. destruct (can_open path); [apply opened_embed_calls|reflexivity].
Qed.

Lemma after_connect_present (path : string) w :
  w_present (after_connect path w) ⊆ {[path]} ∪ w_present w.
Proof.
  unfold after_connect. destruct (can_open path); [apply opened_present|set_solver].
Qed.

Lemma connect_error_None (path : string) :
  connect_error path = None -> after_connect path = opened path.
Proof.
  unfold connect_error, after_connect. now destruct (can_open path).
Qed.

(** [connect_sqlitevec] as a decision over the machine. *)
Lemma connect_sqlitevec_run self w :
  connect_sqlitevec self w =
  match connect_error (db_filepath self) with
  | Some e => (Raised e, after_connect (db_filepath self) w)
  | None => (Returned {| c_path := db_filepath self; c_pending := None |},
             opened (db_filepath self) w)
  end.
Proof.
  unfold connect_sqlitevec, connect, load_extension, connect_error, after_connect.
  run_method. destruct (can_open _); [|reflexivity].
  destruct load_error; reflexivity.
Qed.

Lemma serialize_float32_length v : length (serialize_float32 v) = length v.
Proof. apply length_map. Qed.

(** [add_one] as a decision tree over what it meets. *)
Lemma add_one_run self now query content w :
  add_one self now query content w =
  match connect_error (db_filepath self) with
  | Some e => (Raised e, after_connect (db_filepath self) w)
  | None =>
      match embed self with
      | None => (Raised TypeError, opened (db_filepath self) w)
      | Some f =>
          match f query with
          | Raised e => (Raised e, log_embed_call query (opened (db_filepath self) w))
          | Returned v =>
              let blob := serialize_float32 (take (embedding_size self) v) in
              match w_files w !! db_filepath self with
              | None => (Raised (OperationalError NoSuchTable),
                         log_embed_call query (opened (db_filepath self) w))
              | Some t =>
                  if decide (length blob = t_dim t)
                  then (Returned tt,
                        set_files (insert (db_filepath self)
                                     (append_row t (new_row blob now query content)))
                          (log_embed_call query w))
                  else (Raised (OperationalError (DimensionMismatch (t_dim t) (length blob))),
                        log_embed_call query w)
              end
          end
      end
  end.
Proof.
  unfold add_one. unfold mbind at 1, M_bind at 1. rewrite connect_sqlitevec_run.
  destruct (connect_error _); [reflexivity|].
  unfold call_embed, execute_insert, commit, view. run_method.
  destruct (embed self) as [f|]; [|reflexivity].
  destruct (f query) as [v|e]; [|reflexivity]. simpl.
  rewrite opened_files.
  destruct (w_files w !! db_filepath self) as [t|] eqn:Ht; [|reflexivity].
  rewrite (opened_table _ _ _ Ht).
  destruct (decide _); reflexivity.
Qed.

(** [search] as a decision tree over what it meets. *)
Lemma search_run self query k w :
  search self query k w =
  match connect_error (db_filepath self) with
  | Some e => (Raised e, after_connect (db_filepath self) w)
  | None =>
      match embed self with
      | None => (Raised TypeError, opened (db_filepath self) w)
      | Some f =>
          match f query with
          | Raised e => (Raised e, log_embed_call query (opened (db_filepath self) w))
          | Returned v =>
              let blob := serialize_float32 (take (embedding_size self) v) in
              match w_files w !! db_filepath self with
              | None => (Raised (OperationalError NoSuchTable),
                         log_embed_call query (opened (db_filepath self) w))
              | Some t =>
                  if decide (length blob = t_dim t)
                  then if decide (0 <= k <= knn_k_max)%Z
                       then (Returned (numbered (knn_rows t blob k)), log_embed_call query w)
                       else (Raised (OperationalError (BadK k)), log_embed_call query w)
                  else (Raised (OperationalError (DimensionMismatch (t_dim t) (length blob))),
                        log_embed_call query w)
              end
          end
      end
  end.
Proof.
  unfold search. unfold mbind at 1, M_bind at 1. rewrite connect_sqlitevec_run.
  destruct (connect_error _); [reflexivity|].
  unfold call_embed, execute_select_knn, view. run_method.
  destruct (embed self) as [f|]; [|reflexivity].
  destruct (f query) as [v|e]; [|reflexivity]. simpl.
  rewrite opened_files.
  destruct (w_files w !! db_filepath self) as [t|] eqn:Ht; [|reflexivity].
  rewrite (opened_table _ _ _ Ht).
  destruct (decide _); [|reflexivity].
  destruct (decide _); reflexivity.
Qed.

Lemma mapM_map {X Y Z' : Type} (f : Y -> option Z') (g : X -> Y) (l : list X) :
  mapM f (map g l) = mapM (fun x => f (g x)) l.
Proof. induction l as [|x l IH]; simpl; [reflexivity|]. now rewrite IH. Qed.

(** [get_all] as a decision tree over what it meets. *)
Lemma get_all_run self w :
  get_all self w =
  match connect_error (db_filepath self) with
  | Some e => (Raised e, after_connect (db_filepath self) w)
  | None =>
      match w_files w !! db_filepath self with
      | None => (Raised (OperationalError NoSuchTable), opened (db_filepath self) w)
      | Some t =>
          match mapM record_of_row
                  (order_by r_timestamp Z.leb (scan_order (row f32) (t_rows t))) with
          | Some records => (Returned records, w)
          | None => (Raised JSONDecodeError, w)
          end
      end
  end.
Proof.
  unfold get_all. unfold mbind at 1, M_bind at 1. rewrite connect_sqlitevec_run.
  destruct (connect_error _); [reflexivity|].
  unfold execute_select_all, view. run_method.
  rewrite opened_files.
  destruct (w_files w !! db_filepath self) as [t|] eqn:Ht; [|reflexivity].
  rewrite (opened_table _ _ _ Ht), mapM_map.
  change (fun x : row f32 => read_row _) with record_of_row.
  now destruct (mapM record_of_row _).
Qed.

Lemma initialize_table_run self remove_old_table w :
  initialize_table self remove_old_table w =
  match connect_error (db_filepath self) with
  | Some e => (Raised e, after_connect (db_filepath self) w)
  | None =>
      let w1 := if remove_old_table
                then set_files (delete (db_filepath self)) (there (db_filepath self) w)
                else opened (db_filepath self) w in
      match w_files w1 !! db_filepath self with
      | Some _ => (Returned tt, w1)
      | None =>
          match embedding_size self with
          | O => (Raised (OperationalError (BadDimensions 0)), w1)
          | S _ => (Returned tt,
                    set_files (insert (db_filepath self) (empty_table (embedding_size self)))
                      w1)
          end
      end
  end.
Proof.
  unfold initialize_table. unfold mbind at 1, M_bind at 1. rewrite connect_sqlitevec_run.
  destruct (connect_error _); [reflexivity|].
  unfold execute_drop, execute_create, commit, view. run_method.
  destruct remove_old_table; simpl.
  - rewrite there_opened. simpl. rewrite opened_files, !lookup_delete_eq.
    destruct (embedding_size self); reflexivity.
  - destruct (w_files (opened _ w) !! db_filepath self); [reflexivity|].
    destruct (embedding_size self); reflexivity.
Qed.

Lemma init_run path (size : option nat) (f : option (embedding_callable float)) init_db w :
  init path size f init_db w =
  match (match size with
         | None => match call_embed f "test" w with
                   | (Returned v, w1) => (Returned (length v), w1)
                   | (Raised e, w1) => (Raised e, w1)
                   end
         | Some d => (Returned d, w)
         end) with
  | (Raised e, w1) => (Raised e, w1)
  | (Returned d, w1) =>
      let self := {| db_filepath := path; embed := f; embedding_size := d |} in
      if init_db
      then match initialize_table self true w1 with
           | (Returned _, w2) => (Returned self, w2)
           | (Raised e, w2) => (Raised e, w2)
           end
      else (Returned self, w1)
  end.
Proof.
  unfold init. run_method.
  destruct size as [d|]; simpl.
  - destruct init_db; [|reflexivity].
    destruct (initialize_table _ true w) as [[[]|e] w2]; reflexivity.
  - destruct (call_embed f "test" w) as [[v|e] w1]; [|reflexivity].
    destruct init_db; [|reflexivity].
    destruct (initialize_table _ true w1) as [[[]|e] w2]; reflexivity.
Qed.

(** ** Reading the stored vectors back *)
Lemma record_of_row_is_Some (r : row f32) :
  is_Some (record_of_row r) <-> readable (r_embedding r).
Proof.
  unfold record_of_row, readable.
  destruct (json_loads _); simpl; split; intros [x Hx]; try discriminate; eauto.
Qed.

Lemma records_is_Some (l l' : list (row f32)) :
  Permutation l' l ->
  is_Some (mapM record_of_row l') <-> Forall (fun r => readable (r_embedding r)) l.
Proof.
  intros Hp. rewrite mapM_is_Some, <- Hp. apply Forall_proper; [|reflexivity].
  intros r. apply record_of_row_is_Some.
Qed.

Lemma mapM_omap {X Y : Type} (f : X -> option Y) (l : list X) (k : list Y) :
  mapM f l = Some k -> omap f l = k.
Proof.
  revert k. induction l as [|x l IH]; simpl; intros k; [now intros [= <-]|].
  destruct (f x) as [y|]; simpl; [|discriminate].
  destruct (mapM f l) as [k'|]; simpl; [|discriminate].
  intros [= <-]. f_equal. now apply IH.
Qed.

(** The records of rows, when all can be read, in any order of reading. *)
Lemma records_perm (l l' : list (row f32)) (k k' : list (record float)) :
  Permutation l' l -> mapM record_of_row l = Some k -> mapM record_of_row l' = Some k' ->
  Permutation k' k.
Proof.
  intros Hp Hk Hk'. apply mapM_omap in Hk, Hk'. subst.
  now apply omap_Permutation.
Qed.

Lemma record_fields (l : list (row f32)) (k : list (record float)) :
  mapM record_of_row l = Some k ->
  Forall2 (fun r x => query x = r_query r /\ content x = r_content r
                      /\ timestamp x = r_timestamp r
                      /\ json_loads (vec_to_json (r_embedding r)) = Some (embedding x)) l k.
Proof.
  rewrite mapM_Some. intros H. eapply Forall2_impl; [exact H|].
  intros r x. unfold record_of_row.
  destruct (json_loads _); simpl; [|discriminate]. now intros [= <-].
Qed.

End Methods.

(** The demo worlds are what the methods build. *)
Example fresh_world_built :
  init (B:=IntBackend) "rag.sqlite" (Some 2) (Some demo_embed) true no_files
  = (Returned demo_store, fresh_world).
Proof. vm_compute. reflexivity. Qed.

Example demo_world_built :
  (add_one (B:=IntBackend) demo_store 20 "abcd" "second"
     (add_one (B:=IntBackend) demo_store 10 "ab" "first" fresh_world).2).2
  = demo_world.
Proof. vm_compute. reflexivity. Qed.

(** * Insertion *)
Section AddOne.
Context {B : Backend}.
Implicit Types (self : SQLiteVecDB float) (w : world f32) (t : table f32) (v : list float).

(** C1, as the code has it. On a table of the store's dimension D, when
    [add_one] returns, the embedding had at least D components, and the row
    it appended holds the packed first D of them: a vector of exactly D
    components. And an embedding of D components or more is not refused: its
    first D components are packed and the row is appended, when the
    connection opens. *)
Theorem add_one_stores_D self now query content w :
  consistent self w ->
  (forall w', add_one self now query content w = (Returned tt, w') ->
     exists f v t,
       embed self = Some f /\ f query = Returned v /\
       embedding_size self <= length v /\
       length (serialize_float32 (take (embedding_size self) v)) = embedding_size self /\
       w_files w !! db_filepath self = Some t /\
       w_files w'
       = <[db_filepath self :=
             append_row t (new_row (serialize_float32 (take (embedding_size self) v))
                             now query content)]> (w_files w))
  /\ (forall f v t,
         connect_error (db_filepath self) = None ->
         embed self = Some f -> f query = Returned v ->
         embedding_size self <= length v ->
         w_files w !! db_filepath self = Some t ->
         length (serialize_float32 (take (embedding_size self) v)) = embedding_size self
         /\ add_one self now query content w
            = (Returned tt,
               set_files (insert (db_filepath self)
                            (append_row t
                               (new_row (serialize_float32 (take (embedding_size self) v))
                                  now query content)))
                 (log_embed_call query w))).
Proof.
  intros Hc. split.
  - intros w'. rewrite add_one_run.
    destruct (connect_error _); [discriminate|].
    destruct (embed self) as [f|]; [|discriminate].
    destruct (f query) as [v|e] eqn:Hf; [|discriminate]. cbv zeta.
    destruct (w_files w !! db_filepath self) as [t|] eqn:Ht; [|discriminate].
    destruct (decide _) as [Hlen|]; [|discriminate].
    intros [= <-].
    rewrite (Hc t Ht) in Hlen.
    pose proof Hlen as Hb. rewrite serialize_float32_length, length_take in Hb.
    exists f, v, t. repeat split; try assumption; try reflexivity. lia.
  - intros f v t Hopen Hf Hv Hlen Ht.
    assert (Hb : length (serialize_float32 (take (embedding_size self) v))
                 = embedding_size self).
    { rewrite serialize_float32_length, length_take. lia. }
    split; [exact Hb|].
    rewrite add_one_run, Hopen, Hf, Hv, Ht. cbv zeta.
    destruct (decide _) as [_|Hne]; [reflexivity|].
    rewrite (Hc t Ht) in Hne. contradiction.
Qed.

Lemma search_keeps_files self query k w :
  w_files (search self query k w).2 = w_files w.
Proof.
  rewrite search_run.
  destruct (connect_error _); [apply after_connect_files|].
  destruct (embed self) as [f|]; [|apply opened_files].
  destruct (f query) as [v|e0]; [|apply opened_files]. cbv zeta.
  destruct (w_files w !! db_filepath self) as [t|]; [|apply opened_files].
  repeat destruct (decide _); reflexivity.
Qed.

Lemma add_one_raised_files self now query content w e w' :
  add_one self now query content w = (Raised e, w') -> w_files w' = w_files w.
Proof.
  rewrite add_one_run.
  destruct (connect_error _); [intros [= _ <-]; apply after_connect_files|].
  destruct (embed self) as [f|]; [|intros [= _ <-]; apply opened_files].
  destruct (f query) as [v|e0]; [|intros [= _ <-]; apply opened_files]. cbv zeta.
  destruct (w_files w !! db_filepath self) as [t|]; [|intros [= _ <-]; apply opened_files].
  destruct (decide _); [discriminate|now intros [= _ <-]].
Qed.

(** C9. A call of [add_one] that raises leaves every file as it was, and so
    does every call of [search], whether it raises or returns. *)
Theorem failed_add_one_writes_nothing self now query content k w :
  (forall e w', add_one self now query content w = (Raised e, w') -> w_files w' = w_files w)
  /\ w_files (search self query k w).2 = w_files w.
Proof.
  split.
  - intros e w'. apply add_one_raised_files.
  - apply search_keeps_files.
Qed.

(** C3, as the code has it. [add_one] returns exactly when the connection
    opens, the embedding answers, the file has the table, and the number of
    components kept, the first D or all when there are fewer, is the
    dimension of the table. Otherwise it raises the exception of the callee:
    the one of the connection, [TypeError] for no embedding, the one the
    embedding raised, or the engine's [OperationalError], which for fewer
    than D components on a table of dimension D is a dimension mismatch. The
    tables are as they were. *)
Theorem add_one_failures self now query content w :
  ((add_one self now query content w).1 = Returned tt <->
   exists f v t,
     connect_error (db_filepath self) = None /\ embed self = Some f /\
     f query = Returned v /\ w_files w !! db_filepath self = Some t /\
     min (embedding_size self) (length v) = t_dim t)
  /\ (forall e, connect_error (db_filepath self) = Some e ->
        add_one self now query content w = (Raised e, after_connect (db_filepath self) w))
  /\ (connect_error (db_filepath self) = None ->
      (embed self = None ->
         add_one self now query content w = (Raised TypeError, opened (db_filepath self) w))
      /\ (forall f e, embed self = Some f -> f query = Raised e ->
            add_one self now query content w
            = (Raised e, log_embed_call query (opened (db_filepath self) w)))
      /\ (forall f v t, embed self = Some f -> f query = Returned v ->
            w_files w !! db_filepath self = Some t ->
            min (embedding_size self) (length v) <> t_dim t ->
            add_one self now query content w
            = (Raised (OperationalError
                         (DimensionMismatch (t_dim t)
                            (min (embedding_size self) (length v)))),
               log_embed_call query w))
      /\ (forall f v t, embed self = Some f -> f query = Returned v ->
            length v < embedding_size self ->
            w_files w !! db_filepath self = Some t -> t_dim t = embedding_size self ->
            add_one self now query content w
            = (Raised (OperationalError (DimensionMismatch (embedding_size self) (length v))),
               log_embed_call query w))
      /\ (forall f v, embed self = Some f -> f query = Returned v ->
            w_files w !! db_filepath self = None ->
            add_one self now query content w
            = (Raised (OperationalError NoSuchTable),
               log_embed_call query (opened (db_filepath self) w))))
  /\ (forall e w', add_one self now query content w = (Raised e, w') ->
        w_files w' = w_files w).
Proof.
  assert (Hkept : forall v, length (serialize_float32 (take (embedding_size self) v))
                            = min (embedding_size self) (length v)).
  { intros v. now rewrite serialize_float32_length, length_take. }
  split.
  { rewrite add_one_run. split.
    - destruct (connect_error _); [discriminate|].
      destruct (embed self) as [f|]; [|discriminate].
      destruct (f query) as [v|e] eqn:Hv; [|discriminate]. cbv zeta.
      destruct (w_files w !! db_filepath self) as [t|]; [|discriminate].
      destruct (decide _) as [Hlen|]; [|discriminate].
      intros _. exists f, v, t. rewrite Hkept in Hlen. auto.
    - intros (f & v & t & -> & -> & -> & -> & Hlen). cbv zeta.
      rewrite Hkept. destruct (decide _); [reflexivity|contradiction]. }
  conjuncts.
  - intros e He. now rewrite add_one_run, He.
  - intros Hopen. rewrite add_one_run, Hopen. conjuncts.
    + now intros ->.
    + now intros f e -> ->.
    + intros f v t -> -> -> Hne. cbv zeta.
      rewrite Hkept. destruct (decide _); [contradiction|reflexivity].
    + intros f v t -> -> Hlen -> Hdim. cbv zeta.
      rewrite Hkept, Hdim, Nat.min_r by lia. destruct (decide _); [lia|reflexivity].
    + now intros f v -> -> ->.
  - intros e w'. apply add_one_raised_files.
Qed.

End AddOne.

(** C1 at work: a third row on [demo_world]. *)
Lemma add_one_stores_D_witness :
  (forall w',
     add_one (B:=IntBackend) demo_store 30 "abc" "third" demo_world = (Returned tt, w') ->
     exists f v t,
       embed demo_store = Some f /\ f "abc" = Returned v /\
       embedding_size demo_store <= length v /\
       length (serialize_float32 (B:=IntBackend) (take (embedding_size demo_store) v))
       = embedding_size demo_store /\
       w_files demo_world !! db_filepath demo_store = Some t /\
       w_files w'
       = <[db_filepath demo_store :=
             append_row t
               (new_row (serialize_float32 (B:=IntBackend)
                           (take (embedding_size demo_store) v)) 30 "abc" "third")]>
           (w_files demo_world))
  /\ (forall f v t,
         connect_error (B:=IntBackend) (db_filepath demo_store) = None ->
         embed demo_store = Some f -> f "abc" = Returned v ->
         embedding_size demo_store <= length v ->
         w_files demo_world !! db_filepath demo_store = Some t ->
         length (serialize_float32 (B:=IntBackend) (take (embedding_size demo_store) v))
         = embedding_size demo_store
         /\ add_one (B:=IntBackend) demo_store 30 "abc" "third" demo_world
            = (Returned tt,
               set_files (insert (db_filepath demo_store)
                            (append_row t
                               (new_row (serialize_float32 (B:=IntBackend)
                                           (take (embedding_size demo_store) v))
                                  30 "abc" "third")))
                 (log_embed_call "abc" demo_world))).
Proof.
  apply (add_one_stores_D (B:=IntBackend) demo_store 30 "abc" "third" demo_world).
  intros t Ht. vm_compute in Ht. injection Ht as <-. reflexivity.
Defined.

Example add_one_third_row :
  add_one (B:=IntBackend) demo_store 30 "abc" "third" demo_world
  = (Returned tt,
     set_files (insert "rag.sqlite"
                  (append_row two_rows (new_row [Finite 3; Finite 1] 30 "abc" "third")))
       (log_embed_call "abc" demo_world)).
Proof. vm_compute. reflexivity. Qed.

(** C1 as stated fails: a store of dimension 3 on a file whose table has
    dimension 2, with an embedding of two components: [add_one] returns, and
    the vector it stored has two components. *)
Lemma add_one_stores_fewer_than_D :
  embedding_size wide_store = 3
  /\ exists w' t r,
       add_one (B:=IntBackend) wide_store 30 "abc" "third" demo_world = (Returned tt, w')
       /\ w_files w' !! db_filepath wide_store = Some t
       /\ last (t_rows t) = Some r
       /\ r_query r = "abc" /\ r_embedding r = [Finite 7; Finite 8]
       /\ length (r_embedding r) = 2.
Proof.
  split; [reflexivity|]. do 3 eexists.
  split; [vm_compute; reflexivity|].
  split; [vm_compute; reflexivity|].
  split; [reflexivity|]. repeat split.
Qed.

(** C3 as stated fails: a vector of one component for a store of dimension 2
    is refused by the storage engine, with its own exception, and this is no
    [EmbeddingError]. *)
Lemma short_embedding_raises_OperationalError :
  add_one (B:=IntBackend) short_store 30 "abc" "third" demo_world
  = (Raised (OperationalError (DimensionMismatch 2 1)), log_embed_call "abc" demo_world)
  /\ class_name (OperationalError (DimensionMismatch 2 1)) <> "EmbeddingError".
Proof. split; [vm_compute; reflexivity|discriminate]. Qed.

(** What a failing embedding raises is what [add_one] raises; and a file
    that cannot be opened is the failure of the connection, before the
    embedding is asked. *)
Example failing_embedding_propagates :
  add_one (B:=IntBackend) failing_store 30 "abc" "third" demo_world
  = (Raised (Foreign "TimeoutError"), log_embed_call "abc" demo_world)
  /\ add_one (B:=IntBackend) lost_store 30 "abc" "third" demo_world
     = (Raised (OperationalError CannotOpen), demo_world).
Proof. split; vm_compute; reflexivity. Qed.

(** A store on a file that is missing: the connection creates the file, and
    the insertion fails for want of a table. *)
Example add_one_creates_the_file :
  add_one (B:=IntBackend) demo_store 30 "abc" "third" no_files
  = (Raised (OperationalError NoSuchTable),
     log_embed_call "abc" (there "rag.sqlite" no_files)).
Proof. vm_compute. reflexivity. Qed.

(** * Construction and schema *)
Section Construction.
Context {B : Backend} {L : BackendLaws B}.
Implicit Types (self : SQLiteVecDB float) (w : world f32) (t : table f32) (v : list float).

(** C2, as the code has it. With no dimension given, the constructor calls
    the embedding on ["test"] and goes on as if the length of the answer had
    been given. With no embedding either it raises [TypeError], and an
    exception of the probe leaves the constructor as it is; in both cases no
    statement has run on the file. *)
Theorem init_probe path init_db w :
  (forall f v, f "test" = Returned v ->
     init path None (Some f) init_db w
     = init path (Some (length v)) (Some f) init_db (log_embed_call "test" w))
  /\ (forall f v, f "test" = Returned v ->
        init path None (Some f) false w
        = (Returned (store_of path (Some f) (length v)), log_embed_call "test" w))
  /\ init path None None init_db w = (Raised TypeError, w)
  /\ (forall f e, f "test" = Raised e ->
        init path None (Some f) init_db w = (Raised e, log_embed_call "test" w)).
Proof.
  split; [|split; [|split]].
  - intros f v Hf. rewrite !init_run. simpl. now rewrite Hf.
  - intros f v Hf. rewrite init_run. simpl. now rewrite Hf.
  - now rewrite init_run.
  - intros f e Hf. rewrite init_run. simpl. now rewrite Hf.
Qed.

(** C8. [initialize_table] without the flag leaves a world whose file has the
    table as it is, whether the connection opens or not, and twice is once;
    the constructor without [init_db] writes to no file and creates none; with
    the flag, and when the connection opens, the table of the file is a new empty one of
    the store's dimension, whatever was there. *)
Theorem reset_is_opt_in self w :
  (forall t, w_files w !! db_filepath self = Some t ->
     initialize_table self false w
     = (match connect_error (db_filepath self) with
        | Some e => Raised e
        | None => Returned tt
        end, w))
  /\ (let w1 := (initialize_table self false w).2 in
      (initialize_table self false w1).2 = w1)
  /\ (forall path size f,
        w_files (init path size f false w).2 = w_files w
        /\ w_present (init path size f false w).2 = w_present w)
  /\ (0 < embedding_size self ->
      initialize_table self true w
      = match connect_error (db_filepath self) with
        | Some e => (Raised e, after_connect (db_filepath self) w)
        | None =>
            (Returned tt,
             set_files (insert (db_filepath self) (empty_table (embedding_size self)))
               (there (db_filepath self) w))
        end).
Proof.
  conjuncts.
  - intros t Ht. rewrite initialize_table_run.
    unfold after_connect, connect_error. rewrite (opened_table _ _ _ Ht).
    destruct (can_open _); [|reflexivity].
    destruct load_error; [reflexivity|]. simpl. now rewrite Ht.
  - simpl. rewrite (initialize_table_run self false w).
    destruct (connect_error (db_filepath self)) as [e|] eqn:Hopen; simpl.
    + rewrite initialize_table_run, Hopen. simpl.
      unfold after_connect. destruct (can_open _); [apply opened_opened|reflexivity].
    + rewrite opened_files.
      destruct (w_files w !! db_filepath self) as [t|] eqn:Ht; simpl.
      * rewrite initialize_table_run, Hopen. simpl.
        rewrite opened_opened, opened_files. now rewrite Ht.
      * destruct (embedding_size self) as [|n] eqn:Hn; simpl.
        -- rewrite initialize_table_run, Hopen. simpl.
           rewrite opened_opened, opened_files. now rewrite Ht, Hn.
        -- rewrite initialize_table_run, Hopen. simpl.
           rewrite (opened_table _ (set_files _ _) (empty_table (S n)))
             by apply lookup_insert_eq.
           simpl. now rewrite lookup_insert_eq.
  - intros path size f. rewrite init_run.
    destruct size as [d|]; [split; reflexivity|].
    unfold call_embed, raise. destruct f as [f|]; [|split; reflexivity].
    destruct (f "test"); split; reflexivity.
  - intros Hd. rewrite initialize_table_run.
    destruct (connect_error _); [reflexivity|]. simpl.
    rewrite lookup_delete_eq.
    destruct (embedding_size self) as [|n]; [lia|].
    unfold set_files. simpl. now rewrite insert_delete_eq.
Qed.

(** C10. With a dimension given, the constructor does not call the
    embedding, whether there is one or not; [initialize_table] and [get_all]
    do not look at the embedding of the store: they do for a store without
    one what they do for any store, and return when the connection opens, the
    dimension is positive and the stored vectors can be read; [add_one] and
    [search] of a store without embedding raise, [TypeError] when the
    connection opens. *)
Theorem explicit_size_needs_no_embed path d f w :
  init path (Some d) f false w = (Returned (store_of path f d), w)
  /\ w_embed_calls (init path (Some d) f true w).2 = w_embed_calls w
  /\ (forall b, initialize_table (store_of path None d) b w
                = initialize_table (store_of path f d) b w)
  /\ get_all (store_of path None d) w = get_all (store_of path f d) w
  /\ (connect_error path = None -> 0 < d ->
      forall b, (initialize_table (store_of path None d) b w).1 = Returned tt)
  /\ (connect_error path = None ->
      forall t, w_files w !! path = Some t ->
        Forall (fun r => readable (r_embedding r)) (t_rows t) ->
        exists records, get_all (store_of path None d) w = (Returned records, w))
  /\ (forall now query content,
        add_one (store_of path None d) now query content w
        = match connect_error path with
          | Some e => (Raised e, after_connect path w)
          | None => (Raised TypeError, opened path w)
          end)
  /\ (forall query k,
        search (store_of path None d) query k w
        = match connect_error path with
          | Some e => (Raised e, after_connect path w)
          | None => (Raised TypeError, opened path w)
          end).
Proof.
  conjuncts.
  - now rewrite init_run.
  - rewrite init_run. cbv zeta iota. rewrite initialize_table_run. simpl.
    destruct (connect_error path); [apply after_connect_embed_calls|]. simpl.
    rewrite lookup_delete_eq. destruct d; reflexivity.
  - intros b. now rewrite !initialize_table_run.
  - now rewrite !get_all_run.
  - intros Hopen Hd b. rewrite initialize_table_run. simpl. rewrite Hopen. simpl.
    destruct (w_files _ !! path); [reflexivity|].
    destruct d; [lia|reflexivity].
  - intros Hopen t Ht Hread. rewrite get_all_run. simpl. rewrite Hopen, Ht.
    assert (Hsome : is_Some (mapM record_of_row
                               (order_by r_timestamp Z.leb (scan_order (row f32) (t_rows t))))).
    { apply (records_is_Some (t_rows t)); [|exact Hread].
      rewrite order_by_perm. apply scan_order_perm. }
    destruct Hsome as [records ->]. eauto.
  - intros now query content. now rewrite add_one_run.
  - intros query k. now rewrite search_run.
Qed.

End Construction.

(** C2 as stated fails: a store with neither dimension nor embedding raises
    the [TypeError] of calling [None], no [ConfigurationError]; and a probe
    that times out raises its own exception. *)
Lemma init_without_embed_raises_TypeError :
  init (B:=IntBackend) "rag.sqlite" None None false no_files = (Raised TypeError, no_files)
  /\ class_name TypeError <> "ConfigurationError"
  /\ init (B:=IntBackend) "rag.sqlite" None (Some failing_embed) true no_files
     = (Raised (Foreign "TimeoutError"), log_embed_call "test" no_files)
  /\ class_name (Foreign "TimeoutError") <> "ConfigurationError".
Proof. repeat split; try discriminate; vm_compute; reflexivity. Qed.

(** C10 at work: a store of dimension 2 without embedding on the file of
    [demo_world]. *)
Lemma explicit_size_needs_no_embed_witness :
  init (B:=IntBackend) "rag.sqlite" (Some 2) (Some demo_embed) false demo_world
  = (Returned (store_of "rag.sqlite" (Some demo_embed) 2), demo_world)
  /\ w_embed_calls (init (B:=IntBackend) "rag.sqlite" (Some 2) (Some demo_embed) true
                      demo_world).2
     = w_embed_calls demo_world
  /\ (forall b, initialize_table (B:=IntBackend) (store_of "rag.sqlite" None 2) b demo_world
                = initialize_table (B:=IntBackend)
                    (store_of "rag.sqlite" (Some demo_embed) 2) b demo_world)
  /\ get_all (B:=IntBackend) (store_of "rag.sqlite" None 2) demo_world
     = get_all (B:=IntBackend) (store_of "rag.sqlite" (Some demo_embed) 2) demo_world
  /\ (connect_error (B:=IntBackend) "rag.sqlite" = None -> 0 < 2 ->
      forall b, (initialize_table (B:=IntBackend) (store_of "rag.sqlite" None 2) b
                   demo_world).1 = Returned tt)
  /\ (connect_error (B:=IntBackend) "rag.sqlite" = None ->
      forall t, w_files demo_world !! "rag.sqlite" = Some t ->
        Forall (fun r => readable (B:=IntBackend) (r_embedding r)) (t_rows t) ->
        exists records,
          get_all (B:=IntBackend) (store_of "rag.sqlite" None 2) demo_world
          = (Returned records, demo_world))
  /\ (forall now query content,
        add_one (B:=IntBackend) (store_of "rag.sqlite" None 2) now query content demo_world
        = match connect_error (B:=IntBackend) "rag.sqlite" with
          | Some e => (Raised e, after_connect (B:=IntBackend) "rag.sqlite" demo_world)
          | None => (Raised TypeError, opened "rag.sqlite" demo_world)
          end)
  /\ (forall query k,
        search (B:=IntBackend) (store_of "rag.sqlite" None 2) query k demo_world
        = match connect_error (B:=IntBackend) "rag.sqlite" with
          | Some e => (Raised e, after_connect (B:=IntBackend) "rag.sqlite" demo_world)
          | None => (Raised TypeError, opened "rag.sqlite" demo_world)
          end).
Proof.
  exact (explicit_size_needs_no_embed (B:=IntBackend) (L:=IntBackend_laws)
           "rag.sqlite" 2 (Some demo_embed) demo_world).
Defined.

Example store_without_embedding :
  get_all (B:=IntBackend) (store_of "rag.sqlite" None 2) demo_world
  = get_all (B:=IntBackend) demo_store demo_world
  /\ add_one (B:=IntBackend) (store_of "rag.sqlite" None 2) 30 "abc" "third" demo_world
     = (Raised TypeError, demo_world)
  /\ search (B:=IntBackend) (store_of "/nowhere/rag.sqlite" None 2) "abc" 3 demo_world
     = (Raised (OperationalError CannotOpen), demo_world).
Proof. conjuncts; vm_compute; reflexivity. Qed.

(** The probe at work: the dimension is the length of the answer. *)
Example init_adopts_probe_length :
  init (B:=IntBackend) "rag.sqlite" None (Some demo_embed) false no_files
  = (Returned (store_of "rag.sqlite" (Some demo_embed) 3), log_embed_call "test" no_files).
Proof. reflexivity. Qed.

(** The flag at work on a table of two rows. *)
Example initialize_table_keeps_rows :
  initialize_table (B:=IntBackend) demo_store false demo_world = (Returned tt, demo_world).
Proof. vm_compute. reflexivity. Qed.

Example initialize_table_reset_empties :
  (initialize_table (B:=IntBackend) demo_store true demo_world).2
  = set_files (fun _ => w_files fresh_world) demo_world.
Proof. vm_compute. reflexivity. Qed.

(** Without the flag nothing is lost either when the connection fails: on a
    machine without the extension [initialize_table] raises and the world is
    as it was. *)
Example initialize_table_without_extension :
  initialize_table (B:=BareBackend) demo_store false demo_world
  = (Raised (Foreign "AttributeError"), demo_world)
  /\ initialize_table (B:=BareBackend) demo_store true demo_world
     = (Raised (Foreign "AttributeError"), demo_world).
Proof. split; vm_compute; reflexivity. Qed.

(** * Queries *)
Section Queries.
Context {B : Backend} {L : BackendLaws B}.
Implicit Types (self : SQLiteVecDB float) (w : world f32) (t : table f32) (v : list float).

Lemma numbered_index {A : Type} (l : list A) (n : nat) :
  map fst (zip (seq n (length l)) l) = seq n (length l)
  /\ map snd (zip (seq n (length l)) l) = l.
Proof.
  revert n. induction l as [|x l IH]; intros n; simpl; [easy|].
  destruct (IH (S n)) as [-> ->]. easy.
Qed.

Lemma numbered_rows {A : Type} (l : list A) : map snd (numbered l) = l.
Proof. apply numbered_index. Qed.

Lemma numbered_length {A : Type} (l : list A) : length (numbered l) = length l.
Proof. rewrite <- (numbered_rows l) at 2. now rewrite length_map. Qed.

Lemma knn_rows_ranked t q k : knn_rows t q k = take (Z.to_nat k) (ranked t q).
Proof. reflexivity. Qed.

Lemma ranked_perm t q : Permutation (ranked t q) (map (scored q) (t_rows t)).
Proof.
  unfold ranked. rewrite order_by_perm.
  apply Permutation_map, knn_order_perm.
Qed.

Lemma knn_rows_length t q k :
  length (knn_rows t q k) = min (length (t_rows t)) (Z.to_nat k).
Proof.
  rewrite knn_rows_ranked, length_take, (Permutation_length (ranked_perm t q)), length_map.
  apply Nat.min_comm.
Qed.

Lemma search_reaches_query self query k w t blob :
  reaches_query self query w t blob -> (0 <= k <= knn_k_max)%Z ->
  search self query k w = (Returned (numbered (knn_rows t blob k)), log_embed_call query w).
Proof.
  intros (Hopen & Ht & Hdim & f & v & Hf & Hv & Hlen & ->) Hk.
  rewrite search_run, Hopen, Hf, Hv, Ht. cbv zeta.
  rewrite serialize_float32_length, length_take.
  destruct (decide _) as [_|Hne]; [|lia].
  destruct (decide _) as [_|Hnk]; [reflexivity|lia].
Qed.

(** C4, as the code has it. On a table of N rows and for k from 1 to the
    most the engine takes, a call of [search] that reaches the query returns
    min(N, k) rows; none, and no exception, when the table is empty. *)
Theorem search_cardinality self query k w t blob :
  reaches_query self query w t blob -> (1 <= k <= knn_k_max)%Z ->
  exists results,
    search self query k w = (Returned results, log_embed_call query w)
    /\ length results = min (length (t_rows t)) (Z.to_nat k)
    /\ (t_rows t = [] -> results = []).
Proof.
  intros Hr Hk. eexists. split; [apply (search_reaches_query _ _ _ _ _ _ Hr); lia|].
  assert (Hlen : length (numbered (knn_rows t blob k))
                 = min (length (t_rows t)) (Z.to_nat k))
    by now rewrite numbered_length, knn_rows_length.
  split; [exact Hlen|].
  intros Hnil. rewrite Hnil in Hlen. simpl in Hlen.
  now apply length_zero_iff_nil.
Qed.

(** C5, as the code has it. The rows [search] returns are numbered from 1,
    are min(N, k) of the N rows of the table, ascend in distance to the
    packed first D components of the embedding of the query, and are nearest:
    with the rows left out they make up the table, and none left out is
    nearer than one returned. Rows at the same distance come in the order in
    which the engine meets them. *)
Theorem search_nearest_ascending self query k w t blob :
  reaches_query self query w t blob -> (0 <= k <= knn_k_max)%Z ->
  exists results rest,
    search self query k w = (Returned results, log_embed_call query w)
    /\ length results = min (length (t_rows t)) (Z.to_nat k)
    /\ map fst results = seq 1 (length results)
    /\ Sorted (key_le snd dist_leb) (map snd results)
    /\ Permutation (map snd results ++ rest) (map (scored blob) (t_rows t))
    /\ (forall x y, x ∈ map snd results -> y ∈ rest -> dist_leb x.2 y.2 = true)
    /\ (forall d, List.filter (tied snd dist_leb d) (map snd results ++ rest)
                  = List.filter (tied snd dist_leb d)
                      (map (scored blob) (knn_order (row f32) (t_rows t)))).
Proof.
  intros Hr Hk.
  exists (numbered (knn_rows t blob k)), (drop (Z.to_nat k) (ranked t blob)).
  split; [now apply search_reaches_query|].
  split; [now rewrite numbered_length, knn_rows_length|].
  split; [rewrite numbered_length; apply numbered_index|].
  rewrite numbered_rows, knn_rows_ranked.
  pose proof (order_by_strongly_sorted snd dist_leb dist_leb_total dist_leb_trans
                (map (scored blob) (knn_order (row f32) (t_rows t)))) as Hs.
  fold (ranked t blob) in Hs.
  conjuncts.
  - apply StronglySorted_Sorted.
    apply (StronglySorted_app_1_l _ _ (drop (Z.to_nat k) (ranked t blob))).
    now rewrite take_drop.
  - rewrite take_drop. apply ranked_perm.
  - intros x y. apply order_by_take_nearest; [apply dist_leb_total|apply dist_leb_trans].
  - intros d. rewrite take_drop. apply order_by_stable. apply dist_leb_trans.
Qed.

(** C6. What [search] returns is a function of the table of the file, of the
    first D components of the embedding of the query and of [k]: two calls
    that agree on these return the same, whatever else differs; and a call
    leaves the files as they are, so that the same call again returns the
    same. *)
Theorem search_deterministic self self' query query' k w w' f f' v v' :
  db_filepath self' = db_filepath self -> embedding_size self' = embedding_size self ->
  w_files w' !! db_filepath self = w_files w !! db_filepath self ->
  embed self = Some f -> f query = Returned v ->
  embed self' = Some f' -> f' query' = Returned v' ->
  take (embedding_size self) v' = take (embedding_size self) v ->
  (search self' query' k w').1 = (search self query k w).1
  /\ w_files (search self query k w).2 = w_files w
  /\ (search self query k (search self query k w).2).1 = (search self query k w).1.
Proof.
  intros Hpath Hsize Hfile Hf Hv Hf' Hv' Htake.
  pose proof (search_keeps_files self query k) as Hframe.
  assert (Hfun : forall w1 w2,
             w_files w1 !! db_filepath self = w_files w2 !! db_filepath self ->
             (search self query k w1).1 = (search self query k w2).1).
  { intros w1 w2 E. rewrite !search_run, Hf, Hv, E.
    destruct (connect_error _); [reflexivity|]. cbv zeta.
    destruct (w_files w2 !! _); [|reflexivity].
    repeat destruct (decide _); reflexivity. }
  conjuncts.
  - rewrite <- (Hfun w' w Hfile).
    rewrite !search_run, Hf, Hv, Hf', Hv', Hpath, Hsize, Htake.
    destruct (connect_error _); [reflexivity|]. cbv zeta.
    destruct (w_files w' !! _); [|reflexivity].
    repeat destruct (decide _); reflexivity.
  - apply Hframe.
  - apply Hfun. now rewrite Hframe.
Qed.

End Queries.

(** * Bulk export *)
Section GetAll.
Context {B : Backend} {L : BackendLaws B}.
Implicit Types (self : SQLiteVecDB float) (w : world f32) (t : table f32) (v : list float).

(** What [json.loads] reads in the text of a packed vector, when it reads
    it. *)
Lemma decode_serialize v (x : list float) :
  json_loads (vec_to_json (serialize_float32 v)) = Some x ->
  length x = length v /\ (Forall survives v -> x = v).
Proof.
  unfold json_loads, vec_to_json, serialize_float32. rewrite !mapM_map. intros H. split.
  - symmetry. apply mapM_Some in H. exact (Forall2_length _ _ _ H).
  - intros Hs.
    assert (Hv : mapM (fun x => json_to_float (f32_to_json (pack_f32 x))) v = Some v).
    { apply mapM_Some. clear H. induction Hs; constructor; auto. }
    congruence.
Qed.

(** Lists whose keys agree one by one are sorted together. *)
Lemma sorted_same_keys {X Y : Type} (key1 : X -> Z) (key2 : Y -> Z) (l : list X)
    (k : list Y) :
  Forall2 (fun r x => key2 x = key1 r) l k ->
  Sorted (key_le key1 Z.leb) l -> Sorted (key_le key2 Z.leb) k.
Proof.
  induction 1 as [|r x l k Hrx Hlk IH]; intros Hs; [constructor|].
  apply Sorted_inv in Hs as [Hs Hhd]. constructor; [now apply IH|].
  destruct Hlk as [|r' x' l k Hrx' _]; constructor.
  apply HdRel_inv in Hhd. unfold key_le in *. now rewrite Hrx, Hrx'.
Qed.

(** C7, as the code has it. On a file that opens and has a table whose
    stored vectors can all be read back, [get_all] returns one record for
    each stored row, in ascending order of the timestamps: the order of
    insertion when the clock readings of the rows increase. The embedding of
    a record has the components of the stored vector read back from JSON: as
    many as were packed, and the floats that were packed when they survive
    storage. When the text of some stored vector is no JSON, [get_all]
    raises [JSONDecodeError]. *)
Theorem get_all_by_timestamp self w t :
  connect_error (db_filepath self) = None ->
  w_files w !! db_filepath self = Some t ->
  (Forall (fun r => readable (r_embedding r)) (t_rows t) ->
   exists records stored,
     get_all self w = (Returned records, w)
     /\ mapM record_of_row (t_rows t) = Some stored
     /\ Permutation records stored
     /\ Sorted (key_le timestamp Z.leb) records
     /\ (StronglySorted (fun a b => (r_timestamp a < r_timestamp b)%Z) (t_rows t) ->
         records = stored)
     /\ Forall2 (fun r x =>
                   query x = r_query r /\ content x = r_content r
                   /\ timestamp x = r_timestamp r
                   /\ forall v, r_embedding r = serialize_float32 v ->
                        length (embedding x) = length v
                        /\ (Forall survives v -> embedding x = v))
          (t_rows t) stored)
  /\ (~ Forall (fun r => readable (r_embedding r)) (t_rows t) ->
      get_all self w = (Raised JSONDecodeError, w)).
Proof.
  intros Hopen Ht. rewrite get_all_run, Hopen, Ht.
  assert (Hperm : Permutation (order_by r_timestamp Z.leb (scan_order (row f32) (t_rows t)))
                    (t_rows t)).
  { rewrite order_by_perm. apply scan_order_perm. }
  split.
  - intros Hread.
    destruct (proj2 (records_is_Some (t_rows t) _ Hperm) Hread) as [records Hrecords].
    destruct (proj2 (records_is_Some (t_rows t) _ (Permutation_refl _)) Hread)
      as [stored Hstored].
    exists records, stored. rewrite Hrecords. conjuncts.
    + reflexivity.
    + exact Hstored.
    + exact (records_perm _ _ _ _ Hperm Hstored Hrecords).
    + apply record_fields in Hrecords.
      eapply (sorted_same_keys r_timestamp timestamp).
      * eapply Forall2_impl; [exact Hrecords|]. now intros r x (_ & _ & Hx & _).
      * apply order_by_sorted. intros a b. rewrite !Z.leb_le. lia.
    + intros Hinc.
      rewrite (order_by_increasing r_timestamp (t_rows t)) in Hrecords;
        [congruence|exact Hinc|apply scan_order_perm].
    + apply record_fields in Hstored.
      eapply Forall2_impl; [exact Hstored|].
      intros r x (Hq & Hc & Hts & Hx). conjuncts; try assumption.
      intros v Hv. rewrite Hv in Hx. now apply decode_serialize.
  - intros Hread.
    destruct (mapM record_of_row _) as [records|] eqn:Hrecords; [|reflexivity].
    exfalso. apply Hread. apply (records_is_Some (t_rows t) _ Hperm). eauto.
Qed.

End GetAll.

(** * The dimension of the stored vectors, over the life of a store *)
Section Invariant.
Context {B : Backend}.
Implicit Types (self : SQLiteVecDB float) (w : world f32) (t : table f32) (v : list float).

Lemma fits_files self w w' : w_files w' = w_files w -> fits self w -> fits self w'.
Proof. unfold fits. now intros ->. Qed.

(** A step that leaves the tables as they are keeps the invariant. *)
Ltac keep_files H :=
  eapply fits_files; [|exact H];
  first [apply after_connect_files | apply opened_files | apply search_keeps_files].

Lemma fits_empty_table self w :
  fits self (set_files (insert (db_filepath self) (empty_table (embedding_size self))) w).
Proof.
  intros t. simpl. rewrite lookup_insert_eq. intros [= <-]. now split.
Qed.

Lemma fits_initialize_table self remove_old_table w :
  fits self w -> fits self (initialize_table self remove_old_table w).2.
Proof.
  intros Hw. rewrite initialize_table_run.
  destruct (connect_error _); [keep_files Hw|].
  destruct remove_old_table; simpl.
  - rewrite lookup_delete_eq. destruct (embedding_size self) eqn:E; simpl.
    + intros t. simpl. now rewrite lookup_delete_eq.
    + rewrite <- E. apply fits_empty_table.
  - rewrite opened_files.
    destruct (w_files w !! db_filepath self) eqn:Ht;
      [keep_files Hw|].
    destruct (embedding_size self) eqn:E; [keep_files Hw|].
    rewrite <- E. apply fits_empty_table.
Qed.

Lemma fits_reset self w :
  connect_error (db_filepath self) = None -> fits self (initialize_table self true w).2.
Proof.
  intros Hopen. rewrite initialize_table_run, Hopen. simpl. rewrite lookup_delete_eq.
  destruct (embedding_size self) eqn:E; simpl.
  - intros t. simpl. now rewrite lookup_delete_eq.
  - rewrite <- E. apply fits_empty_table.
Qed.

Lemma fits_add_one self now query content w :
  fits self w -> fits self (add_one self now query content w).2.
Proof.
  intros Hw. rewrite add_one_run.
  destruct (connect_error _); [keep_files Hw|].
  destruct (embed self) as [f|]; [|keep_files Hw].
  destruct (f query) as [v|e]; [|keep_files Hw]. cbv zeta.
  destruct (w_files w !! db_filepath self) as [t|] eqn:Ht;
    [|keep_files Hw].
  destruct (decide _) as [Hlen|]; [|exact Hw].
  destruct (Hw t Ht) as [Hdim Hrows].
  intros t'. simpl. rewrite lookup_insert_eq. intros [= <-]. simpl. split; [exact Hdim|].
  apply Forall_app. split; [exact Hrows|]. constructor; [|constructor].
  simpl. congruence.
Qed.

Lemma get_all_world self w :
  w_files (get_all self w).2 = w_files w
  /\ w_embed_calls (get_all self w).2 = w_embed_calls w.
Proof.
  rewrite get_all_run.
  destruct (connect_error _);
    [split; [apply after_connect_files|apply after_connect_embed_calls]|].
  destruct (w_files w !! db_filepath self);
    [|split; [apply opened_files|apply opened_embed_calls]].
  now destruct (mapM record_of_row _).
Qed.

Lemma fits_run_call self c w : fits self w -> fits self (run_call self c w).
Proof.
  intros Hw. destruct c as [b|now query content| |query k]; simpl.
  - now apply fits_initialize_table.
  - now apply fits_add_one.
  - eapply fits_files; [apply get_all_world|exact Hw].
  - keep_files Hw.
Qed.

(** X1. Whatever the calls made on a store after its table was reset on a
    connection that opened, the table of its file, when there is one, has the
    dimension of the store, and so has every vector stored in it. *)
Theorem dimensionality_invariant self (cs : list call) w :
  connect_error (db_filepath self) = None ->
  fits self (run_calls self cs (initialize_table self true w).2).
Proof.
  intros Hopen. unfold run_calls. generalize (fits_reset self w Hopen).
  generalize ((initialize_table self true w).2). clear w.
  induction cs as [|c cs IH]; intros w Hw; simpl; [exact Hw|].
  apply IH. now apply fits_run_call.
Qed.

End Invariant.

(** * The theorems on the demo worlds *)
Lemma demo_reaches_query :
  reaches_query (B:=IntBackend) demo_store "abc" demo_world two_rows [Finite 3; Finite 1].
Proof.
  split; [reflexivity|]. split; [reflexivity|]. split; [reflexivity|].
  exists demo_embed, [3; 1; 9]%Z.
  split; [reflexivity|]. split; [reflexivity|]. split; [simpl; lia|reflexivity].
Defined.

(** C4 at work: five neighbours asked of a table of two rows. *)
Lemma search_cardinality_witness :
  exists results,
    search (B:=IntBackend) demo_store "abc" 5 demo_world
    = (Returned results, log_embed_call "abc" demo_world)
    /\ length results = min (length (t_rows two_rows)) (Z.to_nat 5)
    /\ (t_rows two_rows = [] -> results = []).
Proof.
  apply (search_cardinality (B:=IntBackend) (L:=IntBackend_laws)
           demo_store "abc" 5 demo_world two_rows [Finite 3; Finite 1]).
  - exact demo_reaches_query.
  - simpl. lia.
Defined.

(** C4 as stated fails: for k = 4097 the engine refuses the query of a store
    of two records, and [search] raises; and so it does for k = 1 on a store
    whose dimension is not that of the table. *)
Lemma search_beyond_the_limit_raises :
  w_files demo_world !! db_filepath demo_store = Some two_rows
  /\ length (t_rows two_rows) = 2
  /\ search (B:=IntBackend) demo_store "abc" 4097 demo_world
     = (Raised (OperationalError (BadK 4097)), log_embed_call "abc" demo_world)
  /\ search (B:=IntBackend) cubic_store "abc" 1 demo_world
     = (Raised (OperationalError (DimensionMismatch 2 3)), log_embed_call "abc" demo_world).
Proof. conjuncts; vm_compute; reflexivity. Qed.

(** Both rows are at the same distance of the query: the later comes
    first. *)
Example search_two_of_two :
  (search (B:=IntBackend) demo_store "abc" 5 demo_world).1
  = Returned [(1, ("abcd", "second", Root 1)); (2, ("ab", "first", Root 1))].
Proof. vm_compute. reflexivity. Qed.

Example search_one_of_two :
  (search (B:=IntBackend) demo_store "abcde" 1 demo_world).1
  = Returned [(1, ("abcd", "second", Root 1))].
Proof. vm_compute. reflexivity. Qed.

Example search_empty_table :
  search (B:=IntBackend) demo_store "abc" 3 fresh_world
  = (Returned [], log_embed_call "abc" fresh_world).
Proof. vm_compute. reflexivity. Qed.

(** C5 at work. *)
Lemma search_nearest_ascending_witness :
  exists results rest,
    search (B:=IntBackend) demo_store "abc" 1 demo_world
    = (Returned results, log_embed_call "abc" demo_world)
    /\ length results = min (length (t_rows two_rows)) (Z.to_nat 1)
    /\ map fst results = seq 1 (length results)
    /\ Sorted (key_le snd distance_leb) (map snd results)
    /\ Permutation (map snd results ++ rest)
         (map (scored (B:=IntBackend) [Finite 3; Finite 1]) (t_rows two_rows))
    /\ (forall x y, x ∈ map snd results -> y ∈ rest -> distance_leb x.2 y.2 = true)
    /\ (forall d, List.filter (tied snd distance_leb d) (map snd results ++ rest)
                  = List.filter (tied snd distance_leb d)
                      (map (scored (B:=IntBackend) [Finite 3; Finite 1])
                         (rev (t_rows two_rows)))).
Proof.
  apply (search_nearest_ascending (B:=IntBackend) (L:=IntBackend_laws)
           demo_store "abc" 1 demo_world two_rows [Finite 3; Finite 1]).
  - exact demo_reaches_query.
  - simpl. lia.
Defined.

(** C5 as stated fails: the statement of [search] orders by distance and by
    nothing else, and two rows at the same distance come out latest first. *)
Lemma ties_come_in_scan_order :
  w_files tie_world !! "rag.sqlite"
  = Some {| t_dim := 2; t_rows := [new_row [Finite 1; Finite 1] 10 "a" "first";
                                   new_row [Finite 1; Finite 1] 20 "b" "second"] |}
  /\ (search (B:=IntBackend) tie_store "q" 2 tie_world).1
     = Returned [(1, ("b", "second", Root 0)); (2, ("a", "first", Root 0))].
Proof. split; vm_compute; reflexivity. Qed.

(** C6 at work. *)
Lemma search_deterministic_witness :
  (search (B:=IntBackend) other_store "xyz" 2 (log_embed_call "noise" demo_world)).1
  = (search (B:=IntBackend) demo_store "abc" 2 demo_world).1
  /\ w_files (search (B:=IntBackend) demo_store "abc" 2 demo_world).2 = w_files demo_world
  /\ (search (B:=IntBackend) demo_store "abc" 2
        (search (B:=IntBackend) demo_store "abc" 2 demo_world).2).1
     = (search (B:=IntBackend) demo_store "abc" 2 demo_world).1.
Proof.
  apply (search_deterministic (B:=IntBackend) demo_store other_store "abc" "xyz" 2
           demo_world (log_embed_call "noise" demo_world)
           demo_embed other_embed [3; 1; 9]%Z [3; 1; 0; 5]%Z); reflexivity.
Defined.

(** C7 at work. *)
Lemma get_all_by_timestamp_witness :
  (Forall (fun r => readable (B:=IntBackend) (r_embedding r)) (t_rows two_rows) ->
   exists records stored,
     get_all (B:=IntBackend) demo_store demo_world = (Returned records, demo_world)
     /\ mapM (record_of_row (B:=IntBackend)) (t_rows two_rows) = Some stored
     /\ Permutation records stored
     /\ Sorted (key_le timestamp Z.leb) records
     /\ (StronglySorted (fun a b => (r_timestamp a < r_timestamp b)%Z) (t_rows two_rows) ->
         records = stored)
     /\ Forall2 (fun r x =>
                   query x = r_query r /\ content x = r_content r
                   /\ timestamp x = r_timestamp r
                   /\ forall v, r_embedding r = serialize_float32 (B:=IntBackend) v ->
                        length (embedding x) = length v
                        /\ (Forall (survives (B:=IntBackend)) v -> embedding x = v))
          (t_rows two_rows) stored)
  /\ (~ Forall (fun r => readable (B:=IntBackend) (r_embedding r)) (t_rows two_rows) ->
      get_all (B:=IntBackend) demo_store demo_world = (Raised JSONDecodeError, demo_world)).
Proof.
  apply (get_all_by_timestamp (B:=IntBackend) (L:=IntBackend_laws)
           demo_store demo_world two_rows); reflexivity.
Defined.

Example get_all_two_rows :
  (get_all (B:=IntBackend) demo_store demo_world).1
  = Returned [ {| embedding := [2; 1]%Z; query := "ab"; content := "first";
                  timestamp := 10 |};
               {| embedding := [4; 1]%Z; query := "abcd"; content := "second";
                  timestamp := 20 |} ].
Proof. vm_compute. reflexivity. Qed.

(** C7 as stated fails: the order of the timestamps is the order of insertion
    only as long as the clock goes forward. *)
Lemma get_all_after_clock_set_back :
  exists t records,
    w_files clock_back_world !! "rag.sqlite" = Some t
    /\ map r_content (t_rows t) = ["first"; "second"]
    /\ get_all (B:=IntBackend) demo_store clock_back_world
       = (Returned records, clock_back_world)
    /\ map content records = ["second"; "first"].
Proof.
  eexists. eexists. split; [vm_compute; reflexivity|].
  split; [reflexivity|]. split; [vm_compute; reflexivity|reflexivity].
Qed.

(** The float 2^24 + 1 is inserted, and [get_all] returns 2^24. *)
Example big_component_comes_back_rounded :
  (get_all (B:=IntBackend) big_store
     (add_one (B:=IntBackend) big_store 10 "q" "c" fresh_world).2).1
  = Returned [ {| embedding := [16777216; 0]%Z; query := "q"; content := "c";
                  timestamp := 10 |} ].
Proof. vm_compute. reflexivity. Qed.

(** The float 2^128 is inserted as an infinity: [add_one] returns, and
    [get_all] raises on the text of the stored vector. *)
Example infinite_component_cannot_be_read :
  (add_one (B:=IntBackend) huge_store 10 "q" "c" fresh_world).1 = Returned tt
  /\ w_files (add_one (B:=IntBackend) huge_store 10 "q" "c" fresh_world).2 !! "rag.sqlite"
     = Some {| t_dim := 2;
               t_rows := [new_row [Infinite false; Finite 0] 10 "q" "c"] |}
  /\ (get_all (B:=IntBackend) huge_store
        (add_one (B:=IntBackend) huge_store 10 "q" "c" fresh_world).2).1
     = Raised JSONDecodeError.
Proof. conjuncts; vm_compute; reflexivity. Qed.

(** X1 at work. *)
Lemma dimensionality_invariant_witness :
  fits (B:=IntBackend) demo_store
    (run_calls (B:=IntBackend) demo_store
       [AddOne 10 "ab" "first"; Search "ab" 1; GetAll; InitializeTable false]
       (initialize_table (B:=IntBackend) demo_store true demo_world).2).
Proof.
  apply (dimensionality_invariant (B:=IntBackend) demo_store
           [AddOne 10 "ab" "first"; Search "ab" 1; GetAll; InitializeTable false]
           demo_world).
  reflexivity.
Defined.

(** * Further properties of the store *)
Section StoreMore.
Context {B : Backend}.
Implicit Types (self : SQLiteVecDB float) (w : world f32) (t : table f32) (v : list float).

(** What a call changes in the tables is the table of the file of the store. *)
Lemma run_call_files self (c : call) w :
  w_files (run_call self c w) = w_files w
  \/ (exists t, w_files (run_call self c w) = <[db_filepath self := t]> (w_files w))
  \/ w_files (run_call self c w) = delete (db_filepath self) (w_files w).
Proof.
  destruct c as [b|now query content| |query k]; simpl.
  - rewrite initialize_table_run.
    destruct (connect_error _); [left; apply after_connect_files|].
    destruct b; simpl.
    + rewrite lookup_delete_eq. destruct (embedding_size self); simpl.
      * right. right. reflexivity.
      * right. left. eexists. apply insert_delete_eq.
    + rewrite opened_files.
      destruct (w_files w !! db_filepath self); [left; apply opened_files|].
      destruct (embedding_size self); simpl; [left; apply opened_files|].
      right. left. rewrite opened_files. eauto.
  - rewrite add_one_run.
    destruct (connect_error _); [left; apply after_connect_files|].
    destruct (embed self) as [f|]; [|left; apply opened_files].
    destruct (f query) as [v|e]; [|left; apply opened_files]. cbv zeta.
    destruct (w_files w !! db_filepath self) as [t|]; [|left; apply opened_files].
    destruct (decide _); [right; left; eauto|now left].
  - left. apply get_all_world.
  - left. apply search_keeps_files.
Qed.

(** What a call changes in the files that are there: the file of the store
    may have come. *)
Lemma opened_grows (path : string) w :
  w_present w ⊆ w_present (opened path w)
  /\ w_present (opened path w) ⊆ {[path]} ∪ w_present w.
Proof.
  unfold opened, there. destruct (w_files w !! path); simpl.
  - split; [reflexivity|apply union_subseteq_r].
  - split; [apply union_subseteq_r|reflexivity].
Qed.

Lemma after_connect_grows (path : string) w :
  w_present w ⊆ w_present (after_connect path w)
  /\ w_present (after_connect path w) ⊆ {[path]} ∪ w_present w.
Proof.
  unfold after_connect. destruct (can_open path); [apply opened_grows|].
  split; [reflexivity|apply union_subseteq_r].
Qed.

Lemma there_grows (path : string) w :
  w_present w ⊆ w_present (there path w)
  /\ w_present (there path w) ⊆ {[path]} ∪ w_present w.
Proof. unfold there. simpl. split; [apply union_subseteq_r|reflexivity]. Qed.

Lemma run_call_present self (c : call) w :
  w_present w ⊆ w_present (run_call self c w)
  /\ w_present (run_call self c w) ⊆ {[db_filepath self]} ∪ w_present w.
Proof.
  destruct c as [b|now query content| |query k]; simpl.
  - rewrite initialize_table_run.
    destruct (connect_error _); [apply after_connect_grows|].
    destruct b; simpl.
    + rewrite lookup_delete_eq. destruct (embedding_size self); apply there_grows.
    + destruct (w_files (opened _ w) !! db_filepath self); [apply opened_grows|].
      destruct (embedding_size self); apply opened_grows.
  - rewrite add_one_run.
    destruct (connect_error _); [apply after_connect_grows|].
    destruct (embed self) as [f|]; [|apply opened_grows].
    destruct (f query) as [v|e]; [|apply opened_grows]. cbv zeta.
    destruct (w_files w !! db_filepath self) as [t|]; [|apply opened_grows].
    destruct (decide _); (split; [reflexivity|apply union_subseteq_r]).
  - rewrite get_all_run.
    destruct (connect_error _); [apply after_connect_grows|].
    destruct (w_files w !! db_filepath self); [|apply opened_grows].
    destruct (mapM record_of_row _); (split; [reflexivity|apply union_subseteq_r]).
  - rewrite search_run.
    destruct (connect_error _); [apply after_connect_grows|].
    destruct (embed self) as [f|]; [|apply opened_grows].
    destruct (f query) as [v|e]; [|apply opened_grows]. cbv zeta.
    destruct (w_files w !! db_filepath self) as [t|]; [|apply opened_grows].
    repeat destruct (decide _); (split; [reflexivity|apply union_subseteq_r]).
Qed.

Lemma grows_elsewhere (path p : string) (X Y : gset string) :
  p <> path -> X ⊆ Y -> Y ⊆ {[path]} ∪ X -> p ∈ Y <-> p ∈ X.
Proof.
  intros Hp Hlow Hup. split; [|apply Hlow].
  intros Hin. apply Hup in Hin. apply elem_of_union in Hin as [Hin|Hin]; [|exact Hin].
  apply elem_of_singleton in Hin. contradiction.
Qed.

(** X2. A store writes to its own file only: whatever the calls made on it,
    and whether they return or raise, the table of every other file is as it
    was, and no other file has come or gone; and the constructor touches no
    file but the one it is given. *)
Theorem other_files_untouched self (cs : list call) w :
  (forall p, p <> db_filepath self ->
     w_files (run_calls self cs w) !! p = w_files w !! p)
  /\ (forall path size f init_db p, p <> path ->
        w_files (init path size f init_db w).2 !! p = w_files w !! p)
  /\ (forall p, p <> db_filepath self ->
        p ∈ w_present (run_calls self cs w) <-> p ∈ w_present w)
  /\ (forall path size f init_db p, p <> path ->
        p ∈ w_present (init path size f init_db w).2 <-> p ∈ w_present w).
Proof.
  split; [|split; [|split]]; cycle 2.
  - intros p Hp. unfold run_calls. revert w.
    induction cs as [|c cs IH]; intros w; simpl; [reflexivity|].
    rewrite IH. destruct (run_call_present self c w) as [Hlow Hup].
    now apply (grows_elsewhere (db_filepath self)).
  - intros path size f init_db p Hp. rewrite init_run.
    assert (Hinit : forall d w0,
               p ∈ w_present (initialize_table (store_of path f d) true w0).2
               <-> p ∈ w_present w0).
    { intros d w0.
      destruct (run_call_present (store_of path f d) (InitializeTable true) w0)
        as [Hlow Hup].
      now apply (grows_elsewhere path). }
    destruct size as [d|]; simpl.
    + destruct init_db; [|reflexivity].
      specialize (Hinit d w). unfold store_of in Hinit.
      destruct (initialize_table _ true w) as [[[]|e] w2]; exact Hinit.
    + unfold call_embed, raise. destruct f as [f|]; [|reflexivity].
      destruct (f "test") as [v|e]; [|reflexivity].
      destruct init_db; [|reflexivity].
      specialize (Hinit (length v) (log_embed_call "test" w)). unfold store_of in Hinit.
      destruct (initialize_table _ true _) as [[[]|e] w2]; exact Hinit.
  - intros p Hp. unfold run_calls. revert w.
    induction cs as [|c cs IH]; intros w; simpl; [reflexivity|].
    rewrite IH.
    destruct (run_call_files self c w) as [->|[[t ->]| ->]]; [reflexivity| |].
    + now apply lookup_insert_ne.
    + now apply lookup_delete_ne.
  - intros path size f init_db p Hp. rewrite init_run.
    assert (Hinit : forall d w0,
               w_files (initialize_table (store_of path f d) true w0).2 !! p
               = w_files w0 !! p).
    { intros d w0.
      destruct (run_call_files (store_of path f d) (InitializeTable true) w0)
        as [E|[[t E]|E]]; simpl in E; rewrite E; [reflexivity| |].
      - now apply lookup_insert_ne.
      - now apply lookup_delete_ne. }
    destruct size as [d|]; simpl.
    + destruct init_db; [|reflexivity].
      specialize (Hinit d w). unfold store_of in Hinit.
      destruct (initialize_table _ true w) as [[[]|e] w2]; exact Hinit.
    + unfold call_embed, raise. destruct f as [f|]; [|reflexivity].
      destruct (f "test") as [v|e]; [|reflexivity].
      destruct init_db; [|reflexivity].
      specialize (Hinit (length v) (log_embed_call "test" w)). unfold store_of in Hinit.
      destruct (initialize_table _ true _) as [[[]|e] w2]; exact Hinit.
Qed.

Lemma run_call_embed_calls self (c : call) w :
  w_embed_calls (run_call self c w) = w_embed_calls w ++ embedded_texts self c.
Proof.
  unfold embedded_texts.
  destruct c as [b|now query content| |query k]; simpl.
  - rewrite initialize_table_run, app_nil_r.
    destruct (connect_error _); [apply after_connect_embed_calls|].
    destruct b; simpl.
    + destruct (_ !! db_filepath self); [reflexivity|].
      destruct (embedding_size self); reflexivity.
    + destruct (_ !! db_filepath self); [apply opened_embed_calls|].
      destruct (embedding_size self); simpl; apply opened_embed_calls.
  - rewrite add_one_run.
    destruct (connect_error _); [rewrite app_nil_r; apply after_connect_embed_calls|].
    destruct (embed self) as [f|]; [|rewrite app_nil_r; apply opened_embed_calls].
    destruct (f query) as [v|e]; [|simpl; now rewrite opened_embed_calls]. cbv zeta.
    destruct (w_files w !! db_filepath self) as [t|];
      [|simpl; now rewrite opened_embed_calls].
    destruct (decide _); reflexivity.
  - rewrite app_nil_r. apply get_all_world.
  - rewrite search_run.
    destruct (connect_error _); [rewrite app_nil_r; apply after_connect_embed_calls|].
    destruct (embed self) as [f|]; [|rewrite app_nil_r; apply opened_embed_calls].
    destruct (f query) as [v|e]; [|simpl; now rewrite opened_embed_calls]. cbv zeta.
    destruct (w_files w !! db_filepath self) as [t|];
      [|simpl; now rewrite opened_embed_calls].
    repeat destruct (decide _); reflexivity.
Qed.

(** X3. The embedding is called once for each [add_one] and each [search]
    whose connection opened, on the text of the call and whatever the call
    ends in, and by no other call: after any calls on a store, the texts it
    was called on are those of these calls, in their order. A call whose
    connection fails does not reach the embedding. *)
Theorem embedding_called_once_per_query self (cs : list call) w :
  w_embed_calls (run_calls self cs w)
  = w_embed_calls w ++ flat_map (embedded_texts self) cs.
Proof.
  unfold run_calls. revert w.
  induction cs as [|c cs IH]; intros w; simpl; [now rewrite app_nil_r|].
  now rewrite IH, run_call_embed_calls, <- app_assoc.
Qed.

End StoreMore.

(** * Insertion and export together *)
Section RoundTrip.
Context {B : Backend} {L : BackendLaws B}.
Implicit Types (self : SQLiteVecDB float) (w : world f32) (t : table f32) (v : list float).

Lemma record_of_row_of_item self f (item : Z * string * string) :
  readable (stored_vector self f item.1.2) ->
  record_of_row (row_of_item self f item) = Some (record_of_item self f item).
Proof.
  unfold record_of_row, row_of_item, record_of_item, readable, new_row. simpl.
  now intros [x ->].
Qed.

Lemma mapM_total {X Y : Type} (f : X -> option Y) (g : X -> Y) (l : list X) :
  Forall (fun x => f x = Some (g x)) l -> mapM f l = Some (map g l).
Proof. induction 1 as [|x l Hx Hl IH]; simpl; [reflexivity|]. now rewrite Hx, IH. Qed.

(** The table after a bulk load in which every embedding answers. *)
Lemma add_all_rows self f (items : list (Z * string * string)) w t :
  connect_error (db_filepath self) = None -> embed self = Some f ->
  w_files w !! db_filepath self = Some t -> t_dim t = embedding_size self ->
  Forall (fun item => embeds self f item.1.2) items ->
  w_files (add_all self items w) !! db_filepath self
  = Some {| t_dim := t_dim t; t_rows := t_rows t ++ map (row_of_item self f) items |}.
Proof.
  intros Hopen Hf. unfold add_all. revert w t.
  induction items as [|[[now query] content] items IH]; intros w t Ht Hdim Hall; simpl.
  - rewrite app_nil_r, Ht. now destruct t.
  - apply Forall_cons in Hall as [(v & Hv & Hlen) Hall]. simpl in Hv.
    rewrite add_one_run, Hopen, Hf, Hv, Ht. cbv zeta.
    rewrite serialize_float32_length, length_take.
    destruct (decide _) as [_|Hne]; [|lia]. simpl.
    rewrite (IH _ (append_row t (new_row (serialize_float32 (take (embedding_size self) v))
                                   now query content)));
      [|simpl; apply lookup_insert_eq|exact Hdim|exact Hall].
    simpl. unfold row_of_item at 2, stored_vector. simpl. rewrite Hv.
    now rewrite <- app_assoc.
Qed.

Lemma rows_of_items_increase self f (items : list (Z * string * string)) :
  StronglySorted (fun a b => (a.1.1 < b.1.1)%Z) items ->
  StronglySorted (fun a b => (r_timestamp a < r_timestamp b)%Z)
    (map (row_of_item self f) items).
Proof.
  induction 1 as [|a l Hl IH Ha]; simpl; constructor; [exact IH|].
  apply Forall_map. eapply Forall_impl; [exact Ha|]. now intros b Hb.
Qed.

(** X4. Bulk load and export are inverse to each other: after the table of a
    store was reset on a connection that opens, insertions whose embeddings
    all answer with at least D components, made at increasing clock readings,
    are returned by [get_all] one record each, in the order of insertion,
    with the query, the content and the timestamp of each insertion and the
    vector stored for its query read back, when the text of every stored
    vector can be read; when one cannot, [get_all] raises
    [JSONDecodeError]. *)
Theorem bulk_load_round_trip self f (items : list (Z * string * string)) w :
  connect_error (db_filepath self) = None ->
  0 < embedding_size self -> embed self = Some f ->
  Forall (fun item => embeds self f item.1.2) items ->
  StronglySorted (fun a b => (a.1.1 < b.1.1)%Z) items ->
  (Forall (fun item => readable (stored_vector self f item.1.2)) items ->
   (get_all self (add_all self items (initialize_table self true w).2)).1
   = Returned (map (record_of_item self f) items))
  /\ (~ Forall (fun item => readable (stored_vector self f item.1.2)) items ->
      (get_all self (add_all self items (initialize_table self true w).2)).1
      = Raised JSONDecodeError).
Proof.
  intros Hopen Hd Hf Hall Hinc.
  assert (Hreset : w_files (initialize_table self true w).2 !! db_filepath self
                   = Some (empty_table (embedding_size self))).
  { rewrite initialize_table_run, Hopen. simpl. rewrite lookup_delete_eq.
    destruct (embedding_size self) eqn:E; [lia|]. simpl. apply lookup_insert_eq. }
  rewrite get_all_run, Hopen,
    (add_all_rows self f items _ _ Hopen Hf Hreset eq_refl Hall). simpl.
  rewrite (order_by_increasing r_timestamp (map (row_of_item self f) items));
    [|now apply rows_of_items_increase|apply scan_order_perm].
  rewrite mapM_map. split.
  - intros Hread. rewrite (mapM_total _ (record_of_item self f)); [reflexivity|].
    eapply Forall_impl; [exact Hread|].
    intros item. apply record_of_row_of_item.
  - intros Hread.
    destruct (mapM _ items) as [records|] eqn:Hrecords; [|reflexivity].
    exfalso. apply Hread.
    assert (Hsome : is_Some (mapM (fun x => record_of_row (row_of_item self f x)) items))
      by eauto.
    apply mapM_is_Some in Hsome.
    eapply Forall_impl; [exact Hsome|].
    intros item Hitem. now apply record_of_row_is_Some in Hitem.
Qed.

(** X5. An insertion is visible at once: when [add_one] returns on a file
    with a table of N rows, the table has these rows and one more, with the
    query, the content and the clock reading of the call; [get_all] returns
    the records of the N + 1 rows when the text of every stored vector can be
    read, and raises [JSONDecodeError] when not; and [search] for the same
    text returns min(N + 1, k) rows, for k from 1 to the most the engine
    takes. *)
Theorem inserted_row_is_visible self now query content w w' t k :
  w_files w !! db_filepath self = Some t ->
  add_one self now query content w = (Returned tt, w') ->
  (1 <= k <= knn_k_max)%Z ->
  exists r results,
    r_query r = query /\ r_content r = content /\ r_timestamp r = now
    /\ w_files w' !! db_filepath self = Some (append_row t r)
    /\ (Forall (fun r => readable (r_embedding r)) (t_rows t ++ [r]) ->
        exists records stored,
          get_all self w' = (Returned records, w')
          /\ mapM record_of_row (t_rows t ++ [r]) = Some stored
          /\ Permutation records stored)
    /\ (~ Forall (fun r => readable (r_embedding r)) (t_rows t ++ [r]) ->
        get_all self w' = (Raised JSONDecodeError, w'))
    /\ search self query k w' = (Returned results, log_embed_call query w')
    /\ length results = min (S (length (t_rows t))) (Z.to_nat k).
Proof.
  intros Ht. rewrite add_one_run, Ht.
  destruct (connect_error _) eqn:Hopen; [discriminate|].
  destruct (embed self) as [f|] eqn:Hf; [|discriminate].
  destruct (f query) as [v|e] eqn:Hv; [|discriminate]. cbv zeta.
  destruct (decide _) as [Hlen|]; [|discriminate].
  intros [= <-] Hk.
  set (r := new_row (serialize_float32 (take (embedding_size self) v)) now query content).
  set (w' := set_files _ _).
  assert (Hw' : w_files w' !! db_filepath self = Some (append_row t r))
    by apply lookup_insert_eq.
  assert (Hperm : Permutation
                    (order_by r_timestamp Z.leb (scan_order (row f32) (t_rows t ++ [r])))
                    (t_rows t ++ [r])).
  { rewrite order_by_perm. apply scan_order_perm. }
  exists r, (numbered (knn_rows (append_row t r) (r_embedding r) k)).
  split; [reflexivity|]. split; [reflexivity|]. split; [reflexivity|].
  split; [exact Hw'|]. split; [|split; [|split]].
  - intros Hread. rewrite get_all_run, Hopen, Hw'. cbn [append_row t_rows].
    destruct (proj2 (records_is_Some _ _ Hperm) Hread) as [records Hrecords].
    destruct (proj2 (records_is_Some _ _ (Permutation_refl _)) Hread) as [stored Hstored].
    exists records, stored. rewrite Hrecords.
    split; [reflexivity|]. split; [exact Hstored|].
    exact (records_perm _ _ _ _ Hperm Hstored Hrecords).
  - intros Hread. rewrite get_all_run, Hopen, Hw'. cbn [append_row t_rows].
    destruct (mapM record_of_row _) as [records|] eqn:Hrecords; [|reflexivity].
    exfalso. apply Hread. apply (records_is_Some _ _ Hperm). eauto.
  - rewrite search_run, Hopen, Hf, Hv, Hw'. cbv zeta. cbn [append_row t_dim].
    destruct (decide _) as [_|Hne]; [|contradiction].
    destruct (decide _) as [_|Hnk]; [reflexivity|lia].
  - rewrite numbered_length, knn_rows_length. cbn [append_row t_rows].
    rewrite length_app. cbn [length]. f_equal. lia.
Qed.

End RoundTrip.

(** * File names and file discovery *)

Lemma replace_char_app (old new : ascii) (a b : string) :
  replace_char old new (a +:+ b) = replace_char old new a +:+ replace_char old new b.
Proof. induction a as [|c a IH]; simpl; [reflexivity|]. now rewrite IH. Qed.

Lemma replace_char_gone (old new : ascii) (s : string) (n : nat) :
  old <> new -> String.get n (replace_char old new s) <> Some old.
Proof.
  intros Hne. revert n. induction s as [|c s IH]; intros n; simpl; [discriminate|].
  destruct n as [|n]; [|apply IH].
  destruct (Ascii.eqb_spec c old) as [->|Hc]; congruence.
Qed.

Lemma endswith_refl (s : string) : endswith s s = true.
Proof. destruct s; cbn [endswith]; now rewrite String.eqb_refl. Qed.

Lemma endswith_app (a b suffix : string) :
  endswith b suffix = true -> endswith (a +:+ b) suffix = true.
Proof.
  intros Hb. induction a as [|c a IH]; simpl; [exact Hb|].
  rewrite IH. apply orb_true_r.
Qed.

Lemma get_db_filename_endswith date_str time_str source model nrows njobs string_ :
  endswith (get_db_filename date_str time_str source model nrows njobs string_) ".sqlite"
  = true.
Proof.
  unfold get_db_filename.
  destruct string_ as [|c s];
    repeat (rewrite replace_char_app; apply endswith_app); reflexivity.
Qed.

(** X6. A name made by [get_db_filename] begins with [RAGDB_], ends with
    [.sqlite] and holds no [/], whatever the source, the model (as
    [models/text-embedding-004]) and the suffix are: it names a file of the
    directory it is put in. *)
Theorem get_db_filename_shape date_str time_str source model nrows njobs string_ :
  (exists rest,
     get_db_filename date_str time_str source model nrows njobs string_ = "RAGDB_" +:+ rest)
  /\ endswith (get_db_filename date_str time_str source model nrows njobs string_)
       ".sqlite" = true
  /\ (forall n,
        String.get n (get_db_filename date_str time_str source model nrows njobs string_)
        <> Some "/"%char).
Proof.
  split; [|split].
  - unfold get_db_filename. destruct string_; eexists; simpl; reflexivity.
  - apply get_db_filename_endswith.
  - intros n. apply replace_char_gone. discriminate.
Qed.

Lemma max_by_first_greatest {A : Type} (key : A -> Z) (x : A) (l : list A) :
  exists before after,
    x :: l = before ++ max_by key x l :: after
    /\ Forall (fun y => (key y < key (max_by key x l))%Z) before
    /\ Forall (fun y => (key y <= key (max_by key x l))%Z) after.
Proof.
  revert x. induction l as [|y l IH]; intros x; simpl.
  - exists [], []. repeat split; constructor.
  - destruct (Z.ltb_spec (key x) (key y)) as [Hlt|Hge].
    + destruct (IH y) as (before & after & E & Hb & Ha).
      exists (x :: before), after. rewrite E. repeat split; [|exact Ha].
      constructor; [|exact Hb].
      destruct before as [|b before]; simpl in E; injection E as <- _.
      * exact Hlt.
      * apply Forall_cons in Hb as [Hb _]. lia.
    + destruct (IH x) as (before & after & E & Hb & Ha).
      destruct before as [|b before]; simpl in E; injection E as Ex El.
      * exists [], (y :: l). rewrite <- Ex in Ha |- *.
        split; [reflexivity|]. split; [constructor|].
        constructor; [lia|]. subst after. exact Ha.
      * subst b. apply Forall_cons in Hb as [Hx Hb].
        exists (x :: y :: before), after.
        split; [simpl; do 2 f_equal; exact El|]. split; [|exact Ha].
        constructor; [exact Hx|]. constructor; [lia|exact Hb].
Qed.

Section Discovery.
Context (env : gmap string string) (fs : filesystem) (project_root : string).

(** X7. [get_sqlite_db_path] raises [KeyError] when [RAG_DB_DIR] is not set,
    and [FileNotFoundError] when the directory has no entry that ends in
    [.sqlite], whatever file is asked for, also one that is there. *)
Theorem discovery_needs_a_sqlite_file (db_file_name : option string) :
  (env !! "RAG_DB_DIR" = None ->
     get_sqlite_db_path env fs project_root db_file_name = inl (KeyError "RAG_DB_DIR"))
  /\ (forall dir, env !! "RAG_DB_DIR" = Some dir ->
        Forall (fun entry => endswith entry.1 ".sqlite" = false)
          (scandir fs (joinpath fs project_root dir)) ->
        get_sqlite_db_path env fs project_root db_file_name
        = inl (FileNotFoundError
                 ("No database files found in: " +:+ joinpath fs project_root dir))).
Proof.
  unfold get_sqlite_db_path. split.
  - now intros ->.
  - intros dir -> Hnone. unfold glob_sqlite.
    induction Hnone as [|entry l He Hl IH]; simpl; [reflexivity|].
    rewrite He. exact IH.
Qed.

(** X8. Asked for no name, or for [default] in any capitals,
    [get_sqlite_db_path] returns the resolved path of the entry in [.sqlite]
    of the latest modification time, the first of them in the order of the
    directory when several are the latest. *)
Theorem default_is_latest (db_file_name : option string) (dir : string) :
  env !! "RAG_DB_DIR" = Some dir ->
  names_default db_file_name = true ->
  glob_sqlite fs (joinpath fs project_root dir) <> [] ->
  exists before name mtime after,
    glob_sqlite fs (joinpath fs project_root dir) = before ++ (name, mtime) :: after
    /\ Forall (fun entry => (entry.2 < mtime)%Z) before
    /\ Forall (fun entry => (entry.2 <= mtime)%Z) after
    /\ get_sqlite_db_path env fs project_root db_file_name
       = inr (resolve fs (joinpath fs (joinpath fs project_root dir) name)).
Proof.
  intros Henv Hdef Hsome. unfold get_sqlite_db_path. rewrite Henv, Hdef.
  destruct (glob_sqlite fs _) as [|x l]; [contradiction|].
  destruct (max_by_first_greatest snd x l) as (before & after & E & Hb & Ha).
  destruct (max_by snd x l) as [name mtime] eqn:Em.
  exists before, name, mtime, after. now repeat split.
Qed.

(** X9. A path that [get_sqlite_db_path] returns is the resolved path of a
    file of the directory that exists, on a file system where the entries of
    a directory exist. *)
Theorem returned_path_exists (db_file_name : option string) (p : string) :
  (forall d entry, In entry (scandir fs d) -> path_exists fs (joinpath fs d entry.1) = true) ->
  get_sqlite_db_path env fs project_root db_file_name = inr p ->
  exists dir name,
    env !! "RAG_DB_DIR" = Some dir
    /\ path_exists fs (joinpath fs (joinpath fs project_root dir) name) = true
    /\ p = resolve fs (joinpath fs (joinpath fs project_root dir) name).
Proof.
  intros Hfs. unfold get_sqlite_db_path.
  destruct (env !! "RAG_DB_DIR") as [dir|]; [|discriminate].
  destruct (glob_sqlite fs _) as [|x l] eqn:Eg; [discriminate|].
  destruct (names_default db_file_name).
  - intros [= <-]. exists dir, (max_by snd x l).1. repeat split.
    apply Hfs.
    destruct (max_by_first_greatest snd x l) as (before & after & E & _ & _).
    assert (Hin : In (max_by snd x l) (glob_sqlite fs (joinpath fs project_root dir))).
    { rewrite Eg, E. apply in_or_app. right. now left. }
    unfold glob_sqlite in Hin. now apply filter_In in Hin as [Hin _].
  - destruct (path_exists fs _) eqn:Hex; [|discriminate].
    intros [= <-]. exists dir, (default "" db_file_name). now repeat split.
Qed.

(** X10. Writer and reader agree on names: a file that [get_db_filename]
    named, once in the directory, is found by [get_sqlite_db_path]; asked for
    no name, it returns this file when it is later than every other entry in
    [.sqlite]. *)
Theorem written_file_is_discovered (dir date_str time_str source model : string)
    (nrows njobs : Z) (string_ : string) (mtime : Z) :
  env !! "RAG_DB_DIR" = Some dir ->
  In (get_db_filename date_str time_str source model nrows njobs string_, mtime)
    (scandir fs (joinpath fs project_root dir)) ->
  (forall entry, In entry (glob_sqlite fs (joinpath fs project_root dir)) ->
     entry <> (get_db_filename date_str time_str source model nrows njobs string_, mtime) ->
     (entry.2 < mtime)%Z) ->
  get_sqlite_db_path env fs project_root None
  = inr (resolve fs (joinpath fs (joinpath fs project_root dir)
                       (get_db_filename date_str time_str source model nrows njobs string_))).
Proof.
  intros Henv Hin Hlatest.
  set (name := get_db_filename _ _ _ _ _ _ _) in *.
  assert (Hglob : In (name, mtime) (glob_sqlite fs (joinpath fs project_root dir))).
  { apply filter_In. split; [exact Hin|]. apply get_db_filename_endswith. }
  unfold get_sqlite_db_path. rewrite Henv. simpl.
  destruct (glob_sqlite fs _) as [|x l] eqn:Eg; [contradiction|].
  destruct (max_by_first_greatest snd x l) as (before & after & E & Hb & Ha).
  assert (Hm : max_by snd x l = (name, mtime)).
  { destruct (max_by snd x l) as [n m] eqn:Em.
    destruct (decide ((n, m) = (name, mtime))) as [Heq|Hne]; [exact Heq|].
    assert (Hlt : (m < mtime)%Z).
    { apply (Hlatest (n, m)); [|exact Hne]. rewrite E. apply in_or_app. right. now left. }
    rewrite E in Hglob. apply in_app_or in Hglob as [Hg|[Hg|Hg]].
    - rewrite Forall_forall in Hb. apply list_elem_of_In, Hb in Hg. simpl in Hg. lia.
    - congruence.
    - rewrite Forall_forall in Ha. apply list_elem_of_In, Ha in Hg. simpl in Hg. lia. }
  now rewrite Hm.
Qed.

End Discovery.

(** * The embedding client *)

Lemma Embedding_init_source (key src : string) (m : option string) :
  source (Embedding_init key src m).1 = lower src
  /\ api_key (Embedding_init key src m).1 = key.
Proof.
  unfold Embedding_init. destruct m as [m|]; [easy|].
  destruct (String.eqb src "openai"); [easy|].
  destruct (String.eqb src "google"); easy.
Qed.

Lemma Embedding_init_model (key src m : string) :
  Embedding_init key src (Some m)
  = ({| api_key := key; source := lower src; model := Some m |}, []).
Proof. reflexivity. Qed.

(** X11. Which provider an [Embedding] asks. With a model, the source counts
    in any capitals. With no model, only the words [openai] and [google] as
    they stand get the model of the provider; every other source makes the
    constructor print its complaint and return, and then each [embed] raises:
    [AttributeError] for [openai] or [google] in other capitals, whose
    attribute [model] was never set, and [ValueError] for the rest. *)
Theorem provider_choice {X : Type} (P : providers X) (key src text : string) :
  (forall m,
     Embedding_embed P (Embedding_init key src (Some m)).1 text
     = if String.eqb (lower src) "openai" then openai_embed_query P key m text
       else if String.eqb (lower src) "google" then google_embed_query P key m text
       else Raised (Foreign "ValueError"))
  /\ (src = "openai" ->
      Embedding_init key src None
      = ({| api_key := key; source := "openai"; model := Some "text-embedding-3-small" |}, [])
      /\ Embedding_embed P (Embedding_init key src None).1 text
         = openai_embed_query P key "text-embedding-3-small" text)
  /\ (src = "google" ->
      Embedding_init key src None
      = ({| api_key := key; source := "google"; model := Some "models/text-embedding-004" |}, [])
      /\ Embedding_embed P (Embedding_init key src None).1 text
         = google_embed_query P key "models/text-embedding-004" text)
  /\ (src <> "openai" -> src <> "google" ->
      (Embedding_init key src None).2 = ["> invalid source"]
      /\ Embedding_embed P (Embedding_init key src None).1 text
         = Raised (Foreign (if String.eqb (lower src) "openai"
                               || String.eqb (lower src) "google"
                            then "AttributeError" else "ValueError"))).
Proof.
  conjuncts.
  - intros m. unfold Embedding_embed, get_langchain_embeddings. simpl.
    destruct (String.eqb (lower src) "openai"); [reflexivity|].
    destruct (String.eqb (lower src) "google"); reflexivity.
  - intros ->. split; reflexivity.
  - intros ->. split; reflexivity.
  - intros Ho Hg. unfold Embedding_init.
    destruct (String.eqb_spec src "openai") as [|_]; [contradiction|].
    destruct (String.eqb_spec src "google") as [|_]; [contradiction|].
    split; [reflexivity|].
    unfold Embedding_embed, get_langchain_embeddings. simpl.
    destruct (String.eqb (lower src) "openai"); [reflexivity|].
    destruct (String.eqb (lower src) "google"); reflexivity.
Qed.

Section EmbeddingInStore.
Context {B : Backend}.
Implicit Types (self : SQLiteVecDB float) (w : world f32).

Lemma invalid_source_raises (P : providers float) (key src : string) (m : option string)
    (text : string) :
  lower src <> "openai" -> lower src <> "google" ->
  Embedding_embed P (Embedding_init key src m).1 text = Raised (Foreign "ValueError").
Proof.
  intros Ho Hg. unfold Embedding_embed, get_langchain_embeddings.
  destruct (Embedding_init_source key src m) as [-> _].
  destruct (String.eqb_spec (lower src) "openai") as [|_]; [contradiction|].
  destruct (String.eqb_spec (lower src) "google") as [|_]; [contradiction|].
  reflexivity.
Qed.

(** X12. A source that is neither [openai] nor [google] in any capitals is
    not refused when the [Embedding] is made, but at its first use: a store
    built on its [embed] without a dimension fails in its probe with
    [ValueError] before any statement has run, and a store built with a
    dimension raises in every [add_one] and [search]: [ValueError] when the
    connection opens, with no table changed. *)
Theorem invalid_source_fails_at_first_use (P : providers float) (key src : string)
    (m : option string) (path : string) (init_db : bool) (d : nat) w :
  lower src <> "openai" -> lower src <> "google" ->
  init path None (Some (Embedding_embed P (Embedding_init key src m).1)) init_db w
  = (Raised (Foreign "ValueError"), log_embed_call "test" w)
  /\ (forall now query content,
        add_one (store_of path (Some (Embedding_embed P (Embedding_init key src m).1)) d)
          now query content w
        = match connect_error path with
          | Some e => (Raised e, after_connect path w)
          | None => (Raised (Foreign "ValueError"), log_embed_call query (opened path w))
          end)
  /\ (forall query k,
        search (store_of path (Some (Embedding_embed P (Embedding_init key src m).1)) d)
          query k w
        = match connect_error path with
          | Some e => (Raised e, after_connect path w)
          | None => (Raised (Foreign "ValueError"), log_embed_call query (opened path w))
          end).
Proof.
  intros Ho Hg. conjuncts.
  - rewrite init_run. unfold call_embed.
    now rewrite (invalid_source_raises P key src m "test" Ho Hg).
  - intros now query content. rewrite add_one_run. simpl.
    now rewrite (invalid_source_raises P key src m query Ho Hg).
  - intros query k. rewrite search_run. simpl.
    now rewrite (invalid_source_raises P key src m query Ho Hg).
Qed.

End EmbeddingInStore.

(** * The HTTP service *)
Section ServiceFacts.
Context {B : Backend} {L : BackendLaws B}.
Implicit Types (self db : SQLiteVecDB float) (w : world f32) (t : table f32).
Implicit Types (env : gmap string string) (fs : filesystem) (P : providers float).
Implicit Types (state : app float) (request : SearchRequest).

(** [startup_event] as a decision tree over what it meets. *)
Lemma startup_event_run env fs project_root P w :
  startup_event env fs project_root P w =
  match default "" (env !! "LLM_API_KEY") with
  | EmptyString =>
      (inl (HTTPException 500
              (StartupFailed (ValueError "환경변수에서 LLM_API_KEY를 찾을 수 없음"))), w)
  | String c s =>
      let db_name := default "default" (env !! "RAG_DB_FILENAME") in
      let f := Embedding_embed P
                 {| api_key := String c s;
                    source := lower (default "google" (env !! "EMBEDDING_SOURCE"));
                    model := Some (default "models/text-embedding-004"
                                     (env !! "EMBEDDING_MODEL")) |} in
      match get_sqlite_db_path env fs project_root (Some db_name) with
      | inl e => (inl (HTTPException 500 (StartupFailed e)), w)
      | inr db_path =>
          match f "test" with
          | Raised e =>
              (inl (HTTPException 500 (StartupFailed (StoreException e))),
               log_embed_call "test" w)
          | Returned v =>
              (inr {| VECTOR_DB := Some (store_of db_path (Some f) (length v));
                      DB_NAME := Some db_name |}, log_embed_call "test" w)
          end
      end
  end.
Proof.
  unfold startup_event.
  destruct (default "" (env !! "LLM_API_KEY")) as [|c s]; [reflexivity|]. simpl.
  destruct (get_sqlite_db_path _ _ _ _) as [e|db_path]; [reflexivity|].
  rewrite init_run. unfold call_embed.
  destruct (Embedding_embed _ _ "test") as [v|e]; reflexivity.
Qed.

(** X13. What [startup_event] leaves. It writes to no file and creates
    none. Without a key it fails before it looks for a file or asks the
    provider. Each failure is an [HTTPException] of status 500. When it
    returns, the store is on the file [get_sqlite_db_path] gave for the name
    in [RAG_DB_FILENAME] ([default] when unset), its embedding has been asked
    once, for [test], and D is the number of components of the answer. *)
Theorem startup_outcome env fs project_root P w :
  (w_files (startup_event env fs project_root P w).2 = w_files w
   /\ w_present (startup_event env fs project_root P w).2 = w_present w)
  /\ (default "" (env !! "LLM_API_KEY") = "" ->
      startup_event env fs project_root P w
      = (inl (HTTPException 500
                (StartupFailed (ValueError "환경변수에서 LLM_API_KEY를 찾을 수 없음"))), w))
  /\ (forall e, (startup_event env fs project_root P w).1 = inl e ->
        exists d, e = HTTPException 500 (StartupFailed d))
  /\ (forall state, (startup_event env fs project_root P w).1 = inr state ->
        exists db f v,
          VECTOR_DB state = Some db
          /\ DB_NAME state = Some (default "default" (env !! "RAG_DB_FILENAME"))
          /\ get_sqlite_db_path env fs project_root (DB_NAME state) = inr (db_filepath db)
          /\ embed db = Some f /\ f "test" = Returned v /\ embedding_size db = length v
          /\ (startup_event env fs project_root P w).2 = log_embed_call "test" w).
Proof.
  rewrite startup_event_run.
  destruct (default "" (env !! "LLM_API_KEY")) as [|c s].
  { conjuncts; [reflexivity|reflexivity|reflexivity|intros e [= <-]; eauto|discriminate]. }
  cbv zeta.
  destruct (get_sqlite_db_path _ _ _ _) as [e|db_path] eqn:Hpath.
  { conjuncts; [reflexivity|reflexivity|discriminate|intros e' [= <-]; eauto|discriminate]. }
  destruct (Embedding_embed _ _ "test") as [v|e] eqn:Hv.
  - conjuncts; [reflexivity|reflexivity|discriminate|discriminate|].
    intros state [= <-]. eexists _, _, v. simpl. conjuncts; try reflexivity; eassumption.
  - conjuncts; [reflexivity|reflexivity|discriminate|intros e' [= <-]; eauto|discriminate].
Qed.

(** X14. The provider of a service that has started: the source of
    [EMBEDDING_SOURCE] in any capitals, [google] when unset, with the key of
    [LLM_API_KEY] and the model of [EMBEDDING_MODEL]. When no model is set
    the model is [models/text-embedding-004], also for [openai]: the model
    that [Embedding] has for a provider is never used. *)
Theorem service_provider env fs project_root P w state :
  (startup_event env fs project_root P w).1 = inr state ->
  exists db f key,
    VECTOR_DB state = Some db /\ embed db = Some f /\ env !! "LLM_API_KEY" = Some key
    /\ (lower (default "google" (env !! "EMBEDDING_SOURCE")) = "openai"
        \/ lower (default "google" (env !! "EMBEDDING_SOURCE")) = "google")
    /\ forall text,
         f text
         = if String.eqb (lower (default "google" (env !! "EMBEDDING_SOURCE"))) "openai"
           then openai_embed_query P key
                  (default "models/text-embedding-004" (env !! "EMBEDDING_MODEL")) text
           else google_embed_query P key
                  (default "models/text-embedding-004" (env !! "EMBEDDING_MODEL")) text.
Proof.
  rewrite startup_event_run.
  destruct (env !! "LLM_API_KEY") as [key|] eqn:Hkey; [|discriminate]. simpl.
  destruct key as [|c s]; [discriminate|].
  destruct (get_sqlite_db_path _ _ _ _) as [e|db_path]; [discriminate|].
  destruct (Embedding_embed _ _ "test") as [v|e] eqn:Hv; [|discriminate].
  intros [= <-]. eexists _, _, _. simpl. split; [reflexivity|]. split; [reflexivity|].
  split; [reflexivity|].
  unfold Embedding_embed, get_langchain_embeddings in Hv |- *. simpl in Hv |- *.
  destruct (String.eqb_spec (lower (default "google" (env !! "EMBEDDING_SOURCE"))) "openai")
    as [Ho|Ho].
  - split; [now left|reflexivity].
  - destruct (String.eqb_spec (lower (default "google" (env !! "EMBEDDING_SOURCE")))
                "google") as [Hg|Hg]; [|discriminate].
    split; [now right|reflexivity].
Qed.

Lemma validate_Some (raw_query : option string) (raw_k : option Z) request :
  validate raw_query raw_k = Some request <->
  raw_query = Some (req_query request) /\ req_k request = default 3%Z raw_k
  /\ (1 <= req_k request <= 10)%Z.
Proof.
  unfold validate. destruct raw_query as [q|]; [|split; [discriminate|now intros [? _]]].
  destruct (Z.leb_spec 1 (default 3%Z raw_k)), (Z.leb_spec (default 3%Z raw_k) 10); simpl;
    split; try discriminate.
  - intros [= <-]. simpl. split; [reflexivity|]. split; [reflexivity|lia].
  - intros ([= ->] & Hk & _). destruct request as [q' k']. simpl in *. now subst.
  - intros (_ & Hk & Hr). lia.
  - intros (_ & Hk & Hr). lia.
  - intros (_ & Hk & Hr). lia.
Qed.

Lemma validate_None (raw_query : option string) (raw_k : option Z) :
  validate raw_query raw_k = None <->
  raw_query = None \/ exists k, raw_k = Some k /\ ~ (1 <= k <= 10)%Z.
Proof.
  unfold validate. destruct raw_query as [q|]; [|split; [now left|reflexivity]].
  destruct raw_k as [k|]; simpl.
  - destruct (Z.leb_spec 1 k), (Z.leb_spec k 10); simpl; split; try discriminate;
      try (intros _; right; exists k; split; [reflexivity|lia]);
      try reflexivity.
    intros [|(k' & [= <-] & Hk)]; [discriminate|lia].
  - split; [discriminate|]. intros [|(k' & Hk & _)]; discriminate.
Qed.

Lemma search_handler_files state request w :
  w_files (search_handler state request w).2 = w_files w.
Proof.
  unfold search_handler. destruct (VECTOR_DB state) as [db|]; [|reflexivity].
  pose proof (search_keeps_files db (req_query request) (req_k request) w) as Hk.
  now destruct (search db _ _ w) as [[r|e] w'].
Qed.

Lemma respond_status state request w :
  (exists body, respond (search_handler state request w).1 = Response200 body)
  \/ respond (search_handler state request w).1 = ResponseError 500.
Proof.
  unfold search_handler. destruct (VECTOR_DB state) as [db|]; [|now right].
  destruct (search db _ _ w) as [[r|e] w']; simpl; eauto.
Qed.

(** X15. The parameters of a request are checked before anything runs: a
    request is answered 422, and nothing is asked of the embedding, exactly
    when the query is missing or k is given and lies outside 1..10 (an absent
    k counts as 3); and [GET /v1/search/] answers as [POST /v1/search/]
    does. *)
Theorem request_validation state (raw_query : option string) (raw_k : option Z) w :
  search_get state raw_query raw_k w = post_search state raw_query raw_k w
  /\ ((post_search state raw_query raw_k w).1 = ResponseError 422 <->
      raw_query = None \/ exists k, raw_k = Some k /\ ~ (1 <= k <= 10)%Z)
  /\ ((post_search state raw_query raw_k w).1 = ResponseError 422 ->
      (post_search state raw_query raw_k w).2 = w).
Proof.
  assert (Hiff : (post_search state raw_query raw_k w).1 = ResponseError 422 <->
                 validate raw_query raw_k = None).
  { unfold post_search. destruct (validate raw_query raw_k) as [request|]; [|easy].
    destruct (respond_status state request w) as [[body Hb]|Hb];
      destruct (search_handler state request w) as [r w']; simpl in *; rewrite Hb;
      split; discriminate. }
  conjuncts.
  - unfold search_get, post_search.
    destruct (validate raw_query raw_k) as [params|] eqn:Hv; [|reflexivity].
    apply validate_Some in Hv as (_ & _ & Hk).
    assert (Hv' : validate (Some (req_query params)) (Some (req_k params)) = Some params).
    { apply validate_Some. simpl. auto. }
    now rewrite Hv'.
  - rewrite Hiff. apply validate_None.
  - rewrite Hiff. unfold post_search. now intros ->.
Qed.

(** X16. The answer to a request that reaches the query, on an engine that
    takes k up to 10: status 200; the query of the request; [count] results,
    which are min(N, k) for a table of N rows; each result the content of a
    stored row with its distance to the query vector; the distances
    ascending. The embedding is asked once, for the query. *)
Theorem search_response state db (raw_query : option string) (raw_k : option Z)
    request w t (blob : list f32) :
  (10 <= knn_k_max)%Z ->
  VECTOR_DB state = Some db ->
  validate raw_query raw_k = Some request ->
  reaches_query db (req_query request) w t blob ->
  exists body,
    post_search state raw_query raw_k w
    = (Response200 body, log_embed_call (req_query request) w)
    /\ raw_query = Some (resp_query body)
    /\ count body = length (results body)
    /\ count body = min (length (t_rows t)) (Z.to_nat (default 3%Z raw_k))
    /\ Forall (fun r => exists stored,
                 stored ∈ t_rows t /\ res_content r = r_content stored
                 /\ res_distance r = vec_distance (r_embedding stored) blob) (results body)
    /\ StronglySorted (fun a b => dist_leb (res_distance a) (res_distance b) = true)
         (results body).
Proof.
  intros Hmax Hdb Hv Hr.
  pose proof Hv as (Hq & Hk & Hrange)%validate_Some.
  unfold post_search, search_handler. rewrite Hv, Hdb.
  rewrite (search_reaches_query _ _ _ _ _ _ Hr) by lia.
  eexists. split; [reflexivity|]. simpl.
  set (mk := fun row : nat * (string * string * dist) =>
               {| res_content := row.2.1.2; res_distance := row.2.2 |}).
  assert (Hmap : map mk (numbered (knn_rows t blob (req_k request)))
                 = map (fun x : string * string * dist =>
                          {| res_content := x.1.2; res_distance := x.2 |})
                     (take (Z.to_nat (req_k request)) (ranked t blob))).
  { rewrite <- knn_rows_ranked.
    rewrite <- (numbered_rows (knn_rows t blob (req_k request))) at 2.
    now rewrite map_map. }
  conjuncts.
  - exact Hq.
  - reflexivity.
  - rewrite length_map, numbered_length, knn_rows_length. now rewrite Hk.
  - rewrite Hmap. apply Forall_map, Forall_forall. intros x Hx.
    apply elem_of_take in Hx as (i & Hx & _).
    apply list_elem_of_lookup_2 in Hx. rewrite (ranked_perm t blob) in Hx.
    apply list_elem_of_fmap in Hx as (stored & -> & Hs). now exists stored.
  - rewrite Hmap. apply StronglySorted_fmap with (R1 := key_le snd dist_leb).
    + now intros x y Hxy.
    + apply (StronglySorted_app_1_l _ _ (drop (Z.to_nat (req_k request)) (ranked t blob))).
      rewrite take_drop.
      apply order_by_strongly_sorted; [apply dist_leb_total|apply dist_leb_trans].
Qed.

Lemma search_present (db : SQLiteVecDB float) (query : string) (k : Z) w :
  w_present (search db query k w).2 ⊆ {[db_filepath db]} ∪ w_present w.
Proof.
  rewrite search_run.
  destruct (connect_error _); [apply after_connect_present|].
  destruct (embed db) as [f|]; [|apply opened_present].
  destruct (f query) as [v|e]; [|apply opened_present]. cbv zeta.
  destruct (w_files w !! db_filepath db) as [t|]; [|apply opened_present].
  repeat destruct (decide _); apply union_subseteq_r.
Qed.

(** X17. The search endpoints change no table, whatever the request and
    the state; the one file they can create is the file of the store, which
    the connection creates when it is missing; an answer that is no result
    has status 422 or 500; and a service that has not started answers each
    well-formed request 500 and leaves the world as it is. *)
Theorem search_endpoints_change_no_table state (raw_query : option string)
    (raw_k : option Z) w :
  w_files (post_search state raw_query raw_k w).2 = w_files w
  /\ w_files (search_get state raw_query raw_k w).2 = w_files w
  /\ w_present (post_search state raw_query raw_k w).2
     ⊆ match VECTOR_DB state with
       | Some db => {[db_filepath db]} ∪ w_present w
       | None => w_present w
       end
  /\ (forall code, (post_search state raw_query raw_k w).1 = ResponseError code ->
        code = 422 \/ code = 500)
  /\ (VECTOR_DB state = None -> validate raw_query raw_k <> None ->
      post_search state raw_query raw_k w = (ResponseError 500, w)).
Proof.
  assert (Hpost : w_files (post_search state raw_query raw_k w).2 = w_files w).
  { unfold post_search. destruct (validate raw_query raw_k) as [request|]; [|reflexivity].
    pose proof (search_handler_files state request w) as Hf.
    now destruct (search_handler state request w). }
  conjuncts.
  - exact Hpost.
  - unfold search_get. destruct (validate raw_query raw_k) as [params|]; [|reflexivity].
    destruct (validate (Some _) (Some _)) as [request|]; [|reflexivity].
    pose proof (search_handler_files state request w) as Hf.
    now destruct (search_handler state request w).
  - unfold post_search, search_handler.
    destruct (validate raw_query raw_k) as [request|];
      [|destruct (VECTOR_DB state); [apply union_subseteq_r|reflexivity]].
    destruct (VECTOR_DB state) as [db|]; [|reflexivity].
    pose proof (search_present db (req_query request) (req_k request) w) as Hp.
    now destruct (search db _ _ w) as [[r|e] w'].
  - intros code. unfold post_search.
    destruct (validate raw_query raw_k) as [request|]; [|intros [= <-]; now left].
    destruct (respond_status state request w) as [[body Hb]|Hb];
      destruct (search_handler state request w) as [r w']; simpl in *; rewrite Hb;
      [discriminate|intros [= <-]; now right].
  - intros Hnone Hv. unfold post_search, search_handler.
    destruct (validate raw_query raw_k) as [request|]; [|contradiction].
    now rewrite Hnone.
Qed.

(** X18. [startup_event] does not open the file it found: the service starts
    on a file without a table [vectors], and then answers every well-formed
    request 500: when the connection opens, after it asked the embedding for
    the query. *)
Theorem startup_does_not_check_the_table env fs project_root P w state db
    (raw_query : option string) (raw_k : option Z) request w' :
  (startup_event env fs project_root P w).1 = inr state ->
  VECTOR_DB state = Some db ->
  w_files w' !! db_filepath db = None ->
  validate raw_query raw_k = Some request ->
  post_search state raw_query raw_k w'
  = (ResponseError 500,
     match connect_error (db_filepath db) with
     | Some _ => after_connect (db_filepath db) w'
     | None => log_embed_call (req_query request) (opened (db_filepath db) w')
     end).
Proof.
  rewrite startup_event_run.
  destruct (default "" (env !! "LLM_API_KEY")) as [|c s]; [discriminate|]. cbv zeta.
  destruct (get_sqlite_db_path _ _ _ _) as [e|db_path]; [discriminate|].
  destruct (Embedding_embed _ _ "test") as [v|e]; [|discriminate].
  intros [= <-] [= <-] Hnone Hv. simpl in Hnone.
  unfold post_search, search_handler. rewrite Hv. simpl.
  rewrite search_run. simpl. rewrite Hnone.
  destruct (connect_error db_path); [reflexivity|].
  now destruct (Embedding_embed _ _ (req_query request)) as [v'|e].
Qed.

End ServiceFacts.

(** * A probe without components *)
Section EmptyProbe.
Context {B : Backend}.

(** X19. An embedding that answers the probe with no component gives a
    store of dimension 0. With [init_db] the constructor then, when the
    connection opens, drops the table of the file and fails to create the new
    one, which [vec0] refuses: it raises and the table that was there is
    gone. *)
Theorem empty_probe_drops_the_table (path : string) (f : embedding_callable float)
    (w : world f32) :
  f "test" = Returned [] ->
  init path None (Some f) false w
  = (Returned (store_of path (Some f) 0), log_embed_call "test" w)
  /\ init path None (Some f) true w
     = match connect_error path with
       | Some e => (Raised e, after_connect path (log_embed_call "test" w))
       | None =>
           (Raised (OperationalError (BadDimensions 0)),
            set_files (delete path) (there path (log_embed_call "test" w)))
       end.
Proof.
  intros Hf. split; rewrite init_run; unfold call_embed; rewrite Hf; simpl; [reflexivity|].
  rewrite initialize_table_run. simpl.
  destruct (connect_error path); [reflexivity|]. simpl. now rewrite lookup_delete_eq.
Qed.

End EmptyProbe.

(** * The further properties at work *)

(** X4 at work: the two insertions of [demo_world] come back. *)
Lemma bulk_load_round_trip_witness :
  (Forall (fun item => readable (B:=IntBackend)
                         (stored_vector (B:=IntBackend) demo_store demo_embed item.1.2))
     demo_items ->
   (get_all (B:=IntBackend) demo_store
      (add_all (B:=IntBackend) demo_store demo_items
         (initialize_table (B:=IntBackend) demo_store true no_files).2)).1
   = Returned (map (record_of_item (B:=IntBackend) demo_store demo_embed) demo_items))
  /\ (~ Forall (fun item => readable (B:=IntBackend)
                              (stored_vector (B:=IntBackend) demo_store demo_embed item.1.2))
          demo_items ->
      (get_all (B:=IntBackend) demo_store
         (add_all (B:=IntBackend) demo_store demo_items
            (initialize_table (B:=IntBackend) demo_store true no_files).2)).1
      = Raised JSONDecodeError).
Proof.
  apply (bulk_load_round_trip (B:=IntBackend) (L:=IntBackend_laws)
           demo_store demo_embed demo_items no_files).
  - reflexivity.
  - simpl. lia.
  - reflexivity.
  - repeat constructor.
    + exists [2; 1; 9]%Z. split; [reflexivity|simpl; lia].
    + exists [4; 1; 9]%Z. split; [reflexivity|simpl; lia].
  - repeat constructor.
Defined.

Example bulk_load_records :
  Forall (fun item => readable (B:=IntBackend)
                        (stored_vector (B:=IntBackend) demo_store demo_embed item.1.2))
    demo_items
  /\ map (record_of_item (B:=IntBackend) demo_store demo_embed) demo_items
     = [ {| embedding := [2; 1]%Z; query := "ab"; content := "first"; timestamp := 10 |};
         {| embedding := [4; 1]%Z; query := "abcd"; content := "second"; timestamp := 20 |} ].
Proof.
  split; [|vm_compute; reflexivity].
  repeat constructor; vm_compute; eauto.
Qed.

(** X5 at work: a third row in [demo_world]. *)
Lemma inserted_row_is_visible_witness :
  exists r results,
    r_query r = "abc" /\ r_content r = "third" /\ r_timestamp r = 30%Z
    /\ w_files (add_one (B:=IntBackend) demo_store 30 "abc" "third" demo_world).2
       !! db_filepath demo_store = Some (append_row two_rows r)
    /\ (Forall (fun r => readable (B:=IntBackend) (r_embedding r)) (t_rows two_rows ++ [r]) ->
        exists records stored,
          get_all (B:=IntBackend) demo_store
            (add_one (B:=IntBackend) demo_store 30 "abc" "third" demo_world).2
          = (Returned records,
             (add_one (B:=IntBackend) demo_store 30 "abc" "third" demo_world).2)
          /\ mapM (record_of_row (B:=IntBackend)) (t_rows two_rows ++ [r]) = Some stored
          /\ Permutation records stored)
    /\ (~ Forall (fun r => readable (B:=IntBackend) (r_embedding r))
            (t_rows two_rows ++ [r]) ->
        get_all (B:=IntBackend) demo_store
          (add_one (B:=IntBackend) demo_store 30 "abc" "third" demo_world).2
        = (Raised JSONDecodeError,
           (add_one (B:=IntBackend) demo_store 30 "abc" "third" demo_world).2))
    /\ search (B:=IntBackend) demo_store "abc" 2
         (add_one (B:=IntBackend) demo_store 30 "abc" "third" demo_world).2
       = (Returned results,
          log_embed_call "abc"
            (add_one (B:=IntBackend) demo_store 30 "abc" "third" demo_world).2)
    /\ length results = min (S (length (t_rows two_rows))) (Z.to_nat 2).
Proof.
  apply (inserted_row_is_visible (B:=IntBackend) (L:=IntBackend_laws)
           demo_store 30 "abc" "third" demo_world
           (add_one (B:=IntBackend) demo_store 30 "abc" "third" demo_world).2 two_rows 2).
  - reflexivity.
  - vm_compute. reflexivity.
  - simpl. lia.
Defined.

(** X8 at work: of [new.sqlite] and [copy.sqlite], both the latest, the
    first is taken, for the name [DEFAULT]. *)
Lemma default_is_latest_witness :
  exists before name mtime after,
    glob_sqlite demo_fs (joinpath demo_fs "/srv/app" "database")
    = before ++ (name, mtime) :: after
    /\ Forall (fun entry => (entry.2 < mtime)%Z) before
    /\ Forall (fun entry => (entry.2 <= mtime)%Z) after
    /\ get_sqlite_db_path demo_env demo_fs "/srv/app" (Some "DEFAULT")
       = inr (resolve demo_fs
                (joinpath demo_fs (joinpath demo_fs "/srv/app" "database") name)).
Proof.
  apply (default_is_latest demo_env demo_fs "/srv/app" (Some "DEFAULT") "database").
  - reflexivity.
  - reflexivity.
  - vm_compute. discriminate.
Defined.

Example default_is_new_sqlite :
  get_sqlite_db_path demo_env demo_fs "/srv/app" (Some "DEFAULT")
  = inr "/srv/app/database/new.sqlite"
  /\ get_sqlite_db_path demo_env demo_fs "/srv/app" None = inr "/srv/app/database/new.sqlite".
Proof. split; vm_compute; reflexivity. Qed.

(** The discovery refuses a directory without a file in [.sqlite], also for
    a file that is there, and a name that is not there. *)
Example discovery_failures :
  get_sqlite_db_path demo_env empty_dir_fs "/srv/app" (Some "plain.db")
  = inl (FileNotFoundError "No database files found in: /srv/app/database")
  /\ get_sqlite_db_path demo_env demo_fs "/srv/app" (Some "missing.sqlite")
     = inl (ValueError "Database file not found: /srv/app/database/missing.sqlite")
  /\ get_sqlite_db_path ∅ demo_fs "/srv/app" None = inl (KeyError "RAG_DB_DIR").
Proof. conjuncts; vm_compute; reflexivity. Qed.

(** X9 at work: a file asked for by its name; no [.sqlite] is needed in
    it. *)
Lemma returned_path_exists_witness :
  exists dir name,
    demo_env !! "RAG_DB_DIR" = Some dir
    /\ path_exists demo_fs (joinpath demo_fs (joinpath demo_fs "/srv/app" dir) name) = true
    /\ "/srv/app/database/plain.db"
       = resolve demo_fs (joinpath demo_fs (joinpath demo_fs "/srv/app" dir) name).
Proof.
  apply (returned_path_exists demo_env demo_fs "/srv/app" (Some "plain.db")
           "/srv/app/database/plain.db").
  - intros d entry. unfold demo_fs at 1. cbn [scandir].
    destruct (String.eqb_spec d "/srv/app/database") as [->|_]; [|intros []].
    intros [<-|[<-|[<-|[<-|[<-|[]]]]]]; reflexivity.
  - vm_compute. reflexivity.
Defined.

(** X10 at work. *)
Lemma written_file_is_discovered_witness :
  get_sqlite_db_path demo_env written_fs "/srv/app" None
  = inr (resolve written_fs
           (joinpath written_fs (joinpath written_fs "/srv/app" "database")
              (get_db_filename "20250331" "101500" "google" "models/text-embedding-004"
                 120 40 ""))).
Proof.
  apply (written_file_is_discovered demo_env written_fs "/srv/app" "database"
           "20250331" "101500" "google" "models/text-embedding-004" 120 40 "" 500).
  - reflexivity.
  - right. left. reflexivity.
  - intros entry Hin Hne. vm_compute in Hin.
    destruct Hin as [<-|[<-|[]]]; [simpl; lia|].
    exfalso. apply Hne. vm_compute. reflexivity.
Defined.

Example written_name_text :
  written_name = "RAGDB_20250331_101500_google(models_text-embedding-004)_nrows120_njobs40.sqlite"
  /\ get_db_filename "20250331" "101500" "openai" "text-embedding-3-small" 7 3 "a/b"
     = "RAGDB_20250331_101500_openai(text-embedding-3-small)_nrows7_njobs3_a_b.sqlite".
Proof. split; vm_compute; reflexivity. Qed.

(** X12 at work: a source that is no provider. *)
Lemma invalid_source_fails_at_first_use_witness :
  init (B:=IntBackend) "rag.sqlite" None
    (Some (Embedding_embed demo_providers (Embedding_init "secret" "azure" None).1))
    true demo_world
  = (Raised (Foreign "ValueError"), log_embed_call "test" demo_world)
  /\ (forall now query content,
        add_one (B:=IntBackend)
          (store_of "rag.sqlite"
             (Some (Embedding_embed demo_providers (Embedding_init "secret" "azure" None).1)) 2)
          now query content demo_world
        = match connect_error (B:=IntBackend) "rag.sqlite" with
          | Some e => (Raised e, after_connect (B:=IntBackend) "rag.sqlite" demo_world)
          | None => (Raised (Foreign "ValueError"),
                     log_embed_call query (opened "rag.sqlite" demo_world))
          end)
  /\ (forall query k,
        search (B:=IntBackend)
          (store_of "rag.sqlite"
             (Some (Embedding_embed demo_providers (Embedding_init "secret" "azure" None).1)) 2)
          query k demo_world
        = match connect_error (B:=IntBackend) "rag.sqlite" with
          | Some e => (Raised e, after_connect (B:=IntBackend) "rag.sqlite" demo_world)
          | None => (Raised (Foreign "ValueError"),
                     log_embed_call query (opened "rag.sqlite" demo_world))
          end).
Proof.
  apply (invalid_source_fails_at_first_use (B:=IntBackend) demo_providers
           "secret" "azure" None "rag.sqlite" true 2 demo_world).
  - vm_compute. discriminate.
  - vm_compute. discriminate.
Defined.

(** [OpenAI] with no model: the constructor complains and each [embed]
    raises [AttributeError]; with a model it is [openai]. *)
Example mixed_case_source :
  Embedding_init "secret" "OpenAI" None
  = ({| api_key := "secret"; source := "openai"; model := None |}, ["> invalid source"])
  /\ Embedding_embed demo_providers (Embedding_init "secret" "OpenAI" None).1 "abc"
     = Raised (Foreign "AttributeError")
  /\ Embedding_embed demo_providers (Embedding_init "secret" "OpenAI" (Some "m")).1 "abc"
     = Returned [1; 2; 3]%Z.
Proof. conjuncts; vm_compute; reflexivity. Qed.

(** The service starts on [demo_env]. *)
Example service_starts :
  startup_event (B:=IntBackend) demo_env demo_fs "/srv/app" demo_providers served_world
  = (inr served_app, log_embed_call "test" served_world).
Proof. vm_compute. reflexivity. Qed.

(** X14 at work. *)
Lemma service_provider_witness :
  exists db f key,
    VECTOR_DB served_app = Some db /\ embed db = Some f
    /\ demo_env !! "LLM_API_KEY" = Some key
    /\ (lower (default "google" (demo_env !! "EMBEDDING_SOURCE")) = "openai"
        \/ lower (default "google" (demo_env !! "EMBEDDING_SOURCE")) = "google")
    /\ forall text,
         f text
         = if String.eqb (lower (default "google" (demo_env !! "EMBEDDING_SOURCE"))) "openai"
           then openai_embed_query demo_providers key
                  (default "models/text-embedding-004" (demo_env !! "EMBEDDING_MODEL")) text
           else google_embed_query demo_providers key
                  (default "models/text-embedding-004" (demo_env !! "EMBEDDING_MODEL")) text.
Proof.
  apply (service_provider (B:=IntBackend) demo_env demo_fs "/srv/app" demo_providers
           served_world served_app).
  vm_compute. reflexivity.
Defined.

(** The source [OPENAI] with no model set: the service asks OpenAI for the
    model of Google. *)
Example openai_with_the_model_of_google :
  forall P : providers Z,
    (startup_event (B:=IntBackend) (<["EMBEDDING_SOURCE" := "OPENAI"]> demo_env) demo_fs
       "/srv/app" P served_world).1
    = match openai_embed_query P "secret" "models/text-embedding-004" "test" with
      | Returned v =>
          inr {| VECTOR_DB :=
                   Some (store_of "/srv/app/database/new.sqlite"
                           (Some (Embedding_embed P
                                    {| api_key := "secret"; source := "openai";
                                       model := Some "models/text-embedding-004" |}))
                           (length v));
                 DB_NAME := Some "default" |}
      | Raised e => inl (HTTPException 500 (StartupFailed (StoreException e)))
      end.
Proof.
  intros P. rewrite startup_event_run.
  change (default "" (<["EMBEDDING_SOURCE" := "OPENAI"]> demo_env !! "LLM_API_KEY"))
    with "secret".
  cbv zeta.
  change (get_sqlite_db_path _ demo_fs "/srv/app" _)
    with (@inr py_exception string "/srv/app/database/new.sqlite").
  change (lower (default "google" (<["EMBEDDING_SOURCE" := "OPENAI"]> demo_env
                                     !! "EMBEDDING_SOURCE"))) with "openai".
  change (default "models/text-embedding-004"
            (<["EMBEDDING_SOURCE" := "OPENAI"]> demo_env !! "EMBEDDING_MODEL"))
    with "models/text-embedding-004".
  unfold Embedding_embed at 1. simpl.
  now destruct (openai_embed_query P _ _ _).
Qed.

Lemma served_reaches_query :
  reaches_query (B:=IntBackend) served_store "abc" served_world two_rows
    [Finite 3; Finite 1].
Proof.
  split; [reflexivity|]. split; [reflexivity|]. split; [reflexivity|].
  exists served_embed, [3; 1]%Z.
  split; [reflexivity|]. split; [reflexivity|]. split; [simpl; lia|reflexivity].
Defined.

(** X16 at work: a request with no k on the two rows. *)
Lemma search_response_witness :
  exists body,
    post_search (B:=IntBackend) served_app (Some "abc") None served_world
    = (Response200 body, log_embed_call "abc" served_world)
    /\ Some "abc" = Some (resp_query body)
    /\ count body = length (results body)
    /\ count body = min (length (t_rows two_rows)) (Z.to_nat (default 3%Z None))
    /\ Forall (fun r => exists stored,
                 stored ∈ t_rows two_rows /\ res_content r = r_content stored
                 /\ res_distance r = l2 (r_embedding stored) [Finite 3; Finite 1])
         (results body)
    /\ StronglySorted (fun a b => distance_leb (res_distance a) (res_distance b) = true)
         (results body).
Proof.
  apply (search_response (B:=IntBackend) (L:=IntBackend_laws) served_app served_store
           (Some "abc") None {| req_query := "abc"; req_k := 3 |} served_world two_rows
           [Finite 3; Finite 1]).
  - simpl. lia.
  - reflexivity.
  - reflexivity.
  - exact served_reaches_query.
Defined.

(** Both rows are at the distance 1 of the query: the later is the first
    result. *)
Example search_answers :
  (post_search (B:=IntBackend) served_app (Some "abc") None served_world).1
  = Response200 {| results := [ {| res_content := "second"; res_distance := Root 1 |};
                                {| res_content := "first"; res_distance := Root 1 |} ];
                   resp_query := "abc"; count := 2 |}
  /\ (post_search (B:=IntBackend) served_app (Some "abc") (Some 20%Z) served_world).1
     = ResponseError 422
  /\ (post_search (B:=IntBackend) not_started (Some "abc") (Some 2%Z) served_world).1
     = ResponseError 500.
Proof. conjuncts; vm_compute; reflexivity. Qed.

(** X18 at work: the file is there, its table is not. *)
Lemma startup_does_not_check_the_table_witness :
  post_search (B:=IntBackend) served_app (Some "abc") (Some 2%Z) bare_world
  = (ResponseError 500,
     match connect_error (B:=IntBackend) (db_filepath served_store) with
     | Some _ => after_connect (B:=IntBackend) (db_filepath served_store) bare_world
     | None => log_embed_call "abc" (opened (db_filepath served_store) bare_world)
     end).
Proof.
  apply (startup_does_not_check_the_table (B:=IntBackend) demo_env demo_fs "/srv/app"
           demo_providers bare_world served_app served_store (Some "abc") (Some 2%Z)
           {| req_query := "abc"; req_k := 2 |} bare_world).
  - vm_compute. reflexivity.
  - reflexivity.
  - reflexivity.
  - reflexivity.
Defined.

Example service_on_a_file_without_table :
  startup_event (B:=IntBackend) demo_env demo_fs "/srv/app" demo_providers bare_world
  = (inr served_app, log_embed_call "test" bare_world)
  /\ post_search (B:=IntBackend) served_app (Some "abc") (Some 2%Z) bare_world
     = (ResponseError 500, log_embed_call "abc" bare_world).
Proof. split; vm_compute; reflexivity. Qed.

(** X19 at work. *)
Lemma empty_probe_drops_the_table_witness :
  init (B:=IntBackend) "rag.sqlite" None (Some empty_embed) false demo_world
  = (Returned (store_of "rag.sqlite" (Some empty_embed) 0), log_embed_call "test" demo_world)
  /\ init (B:=IntBackend) "rag.sqlite" None (Some empty_embed) true demo_world
     = match connect_error (B:=IntBackend) "rag.sqlite" with
       | Some e => (Raised e, after_connect (B:=IntBackend) "rag.sqlite"
                                (log_embed_call "test" demo_world))
       | None =>
           (Raised (OperationalError (BadDimensions 0)),
            set_files (delete "rag.sqlite")
              (there "rag.sqlite" (log_embed_call "test" demo_world)))
       end.
Proof.
  apply (empty_probe_drops_the_table (B:=IntBackend) "rag.sqlite" empty_embed demo_world).
  reflexivity.
Defined.

Example empty_probe_leaves_no_table :
  init (B:=IntBackend) "rag.sqlite" None (Some empty_embed) true demo_world
  = (Raised (OperationalError (BadDimensions 0)),
     set_files (fun _ => ∅) (log_embed_call "test" demo_world)).
Proof. vm_compute. reflexivity. Qed.

(** The calls of a store on a file that cannot be opened, and on a machine
    without the extension, do not reach the embedding. *)
Example no_connection_no_embedding :
  search (B:=IntBackend) lost_store "abc" 3 demo_world
  = (Raised (OperationalError CannotOpen), demo_world)
  /\ embedded_texts (B:=IntBackend) lost_store (Search "abc" 3) = []
  /\ search (B:=BareBackend) demo_store "abc" 3 no_files
     = (Raised (Foreign "AttributeError"), there "rag.sqlite" no_files)
  /\ embedded_texts (B:=BareBackend) demo_store (Search "abc" 3) = []
  /\ embedded_texts (B:=IntBackend) demo_store (Search "abc" 3) = ["abc"].
Proof. conjuncts; vm_compute; reflexivity. Qed.
